(** * aitl-cli: the request payload builder and the commands of [cli/main.py]

    A shallow embedding of [_get_endpoint], [_create_template],
    [make_job_create_request] and of the [create_job] command handler, with
    the Python built-ins they rely on ([str.split], [int], truthiness, dict
    item assignment); then, in [Cli], of [auth], the [cli] group and the
    seven subcommands over a network that answers every request.  The
    properties of the payload builder and of the runs follow. *)

From Stdlib Require Import String Ascii List ZArith Bool Lia.
Import ListNotations.

Local Open Scope string_scope.
Local Open Scope Z_scope.

(** ** Python values and exceptions *)

(** The JSON-serialisable values the builder handles.  A dict is kept as an
    association list in insertion order, which is the order Python dicts
    iterate in; a list or tuple is a [VList]. *)
#[warnings="-register-all"]
Inductive value : Type :=
| VNone
| VInt (z : Z)
| VStr (s : string)
| VList (l : list value)
| VDict (d : list (string * value)).

(** The exceptions that can leave the modelled functions.  [ValueError] is
    the one raised by a [raise ValueError(msg)] statement of main.py.
    [InvalidLiteral] is the ValueError that [int] raises on a string it does
    not convert, because it is no integer literal or because it has more
    digits than the interpreter allows; Python builds its message from the
    string, the model keeps the string itself.  [HTTPError] is what
    [raise_for_status] raises. *)
Inductive exn : Type :=
| ValueError (msg : string)
| InvalidLiteral (lit : string)
| HTTPError.

Inductive result (A : Type) : Type :=
| Ok (a : A)
| Raise (e : exn).

Arguments Ok {A} a.
Arguments Raise {A} e.

Definition bind {A B : Type} (r : result A) (k : A -> result B) : result B :=
  match r with
  | Ok a => k a
  | Raise e => Raise e
  end.

Notation "x <- r ;; k" := (bind r (fun x => k))
  (at level 61, r at next level, right associativity).

(** A list comprehension whose body may raise: elements are evaluated left to
    right and the first exception ends the evaluation. *)
Fixpoint comprehension {A B : Type} (f : A -> result B) (l : list A)
  : result (list B) :=
  match l with
  | [] => Ok []
  | a :: r => b <- f a ;; bs <- comprehension f r ;; Ok (b :: bs)
  end.

(** ** Dicts *)

(** [d[k] = v]: replaces the value of an existing key in place, appends a new
    key at the end. *)
Fixpoint dict_set (k : string) (v : value) (d : list (string * value))
  : list (string * value) :=
  match d with
  | [] => [(k, v)]
  | (k', v') :: r =>
      if String.eqb k k' then (k, v) :: r else (k', v') :: dict_set k v r
  end.

Fixpoint dict_get (k : string) (d : list (string * value)) : option value :=
  match d with
  | [] => None
  | (k', v') :: r => if String.eqb k k' then Some v' else dict_get k r
  end.

(** [v[k]] for a value that is a dict holding [k]; [None] stands for every
    other case. *)
Definition item (k : string) (v : value) : option value :=
  match v with
  | VDict d => dict_get k d
  | _ => None
  end.

(** [k in v] *)
Definition has_key (k : string) (v : value) : bool :=
  match item k v with
  | Some _ => true
  | None => false
  end.

(** ** Truthiness *)

(** [if s:] for an argument that is a str or None (a command-line option that
    was not given arrives as None). *)
Definition truthy (s : option string) : bool :=
  match s with
  | None => false
  | Some EmptyString => false
  | Some (String _ _) => true
  end.

(** [if l:] for a sequence. *)
Definition nonempty {A : Type} (l : list A) : bool :=
  match l with
  | [] => false
  | _ :: _ => true
  end.

(** ** [str.split] with a one-character separator *)

Fixpoint split (sep : ascii) (s : string) : list string :=
  match s with
  | EmptyString => [EmptyString]
  | String c r =>
      if Ascii.eqb c sep then EmptyString :: split sep r
      else match split sep r with
           | [] => [String c EmptyString]
           | h :: t => String c h :: t
           end
  end.

(** [sep.join(parts)] *)
Fixpoint join (sep : ascii) (parts : list string) : string :=
  match parts with
  | [] => EmptyString
  | [p] => p
  | p :: r => p ++ String sep (join sep r)
  end.

(** [c in s] for a character *)
Fixpoint contains (c : ascii) (s : string) : bool :=
  match s with
  | EmptyString => false
  | String c' r => Ascii.eqb c' c || contains c r
  end.

(** ** [int] *)

(** An element of [test_priorities]: a str, as the command line delivers it,
    or an int, as the unit test passes it. *)
Inductive priority : Type :=
| PStr (s : string)
| PInt (z : Z).

(** Strings are sequences of code points below 256.  In that range the
    characters [int] strips as whitespace are U+0009..U+000D, U+0020, U+0085
    and U+00A0, and the only decimal digits are '0'..'9'. *)
Definition is_space (c : ascii) : bool :=
  let n := N_of_ascii c in
  ((9 <=? n) && (n <=? 13) || (n =? 32) || (n =? 133) || (n =? 160))%N.

Definition is_digit (c : ascii) : bool :=
  let n := N_of_ascii c in ((48 <=? n) && (n <=? 57))%N.

Definition digit_value (c : ascii) : Z := Z.of_N (N_of_ascii c) - 48.

Fixpoint lstrip (l : list ascii) : list ascii :=
  match l with
  | c :: r => if is_space c then lstrip r else l
  | [] => []
  end.

Definition strip (l : list ascii) : list ascii :=
  rev (lstrip (rev (lstrip l))).

(** The digits of a base-10 literal, where single underscores may separate
    digits.  [after_digit] tells whether the previous character was a digit:
    an underscore is accepted only there, and the literal must end there. *)
Fixpoint digits (after_digit : bool) (acc : Z) (l : list ascii) : option Z :=
  match l with
  | [] => if after_digit then Some acc else None
  | c :: r =>
      if is_digit c then digits true (10 * acc + digit_value c) r
      else if Ascii.eqb c "_" then
             if after_digit then digits false acc r else None
      else None
  end.

(** The most digits [int] converts, [sys.get_int_max_str_digits()]: 4300
    unless the interpreter is started with another limit, which main.py does
    not ask for. *)
Definition int_max_str_digits : Z := 4300.

Definition digit_count (l : list ascii) : Z :=
  Z.of_nat (length (filter is_digit l)).

(** The literal after the sign: its digits are counted first, and a literal
    with more digits than the limit is refused. *)
Definition literal (l : list ascii) : option Z :=
  if digit_count l <=? int_max_str_digits then digits false 0 l else None.

Definition int_of_string (s : string) : option Z :=
  match strip (list_ascii_of_string s) with
  | c :: r =>
      if Ascii.eqb c "-" then option_map Z.opp (literal r)
      else if Ascii.eqb c "+" then literal r
      else literal (c :: r)
  | [] => None
  end.

(** [int(x)] *)
Definition int (x : priority) : result Z :=
  match x with
  | PInt z => Ok z
  | PStr s =>
      match int_of_string s with
      | Some z => Ok z
      | None => Raise (InvalidLiteral s)
      end
  end.

(** ** The payload builder *)

Definition RESOURCE_PROVIDER : string := "Microsoft.AzureImageTestingForLinux".
Definition API_VERSION : string := "2023-08-01-preview".

Definition _get_endpoint (segment resource_group subscription_id : string)
  : string :=
  "https://eastus2euap.management.azure.com/subscriptions/" ++ subscription_id
  ++ "/" ++ "resourceGroups/" ++ resource_group ++ "/providers/"
  ++ RESOURCE_PROVIDER ++ "/" ++ segment ++ "?api-version=" ++ API_VERSION.

(** A str-or-None argument as a value, and the str it holds.  [str_of] is
    used only under [truthy], where the argument is a str. *)
Definition str_value (o : option string) : value :=
  match o with
  | Some s => VStr s
  | None => VNone
  end.

Definition str_of (o : option string) : string :=
  match o with
  | Some s => s
  | None => EmptyString
  end.

Definition _create_template
  (vm_size : option string) (test_priorities : list priority)
  (test_cases : list string) (location : string) (regions : list string)
  (concurrency : value) : result value :=
  let template := [("templateTags", VList [])] in
  let selection := [] in
  selection <-
    (if nonempty test_priorities then
       ps <- comprehension int test_priorities ;;
       Ok (dict_set "casePriority" (VList (map VInt ps)) selection)
     else Ok selection) ;;
  let selection :=
    if nonempty test_cases
    then dict_set "caseName" (VList (map VStr test_cases)) selection
    else selection in
  let template :=
    if nonempty selection
    then dict_set "selections" (VList [VDict selection]) template
    else template in
  let template :=
    dict_set "region"
      (if nonempty regions then VList (map VStr regions) else VList [])
      template in
  let template :=
    dict_set "vmSize"
      (if truthy vm_size then VList [str_value vm_size] else VList [])
      template in
  let template := dict_set "concurrency" concurrency template in
  Ok (VDict template).

Definition only_one_msg : string :=
  "Only one of --vhd-sas-url or --marketplace-image-urn can be used for a given test job.".

Definition urn_format_msg (marketplace_image_urn : string) : string :=
  "marketplace_image_urn should be in the format of 'publisher:offer:sku:version', "
  ++ "got " ++ marketplace_image_urn.

Definition one_of_msg : string :=
  "One of --vhd-sas-url or --marketplace-image-urn should be passed.".

(** The ValueError of a tuple assignment whose right-hand side has the wrong
    number of items; the length test before the assignment leaves it out of
    reach. *)
Definition unpack_msg : string := "wrong number of values to unpack".

Definition make_job_create_request
  (marketplace_image_urn vhd_sas_url : option string)
  (job_name : string) (template_name : option string)
  (resource_group subscription_id : string)
  (vm_size : option string) (test_priorities : list priority)
  (test_cases : list string) (location : string) (region : list string)
  (concurrency vm_generation : value) (architecture : option string)
  : result (value * string) :=
  let endpoint :=
    _get_endpoint ("jobs/" ++ job_name) resource_group subscription_id in
  let image :=
    [("vhdGeneration", vm_generation);
     ("architecture", str_value architecture)] in
  image <-
    (if truthy marketplace_image_urn && truthy vhd_sas_url then
       Raise (ValueError only_one_msg)
     else if truthy marketplace_image_urn then
       let image := dict_set "type" (VStr "marketplace") image in
       let image_parts := split ":" (str_of marketplace_image_urn) in
       if negb (length image_parts =? 4)%nat then
         Raise (ValueError (urn_format_msg (str_of marketplace_image_urn)))
       else
         match image_parts with
         | [publisher; offer; sku; version] =>
             Ok (dict_set "version" (VStr version)
                   (dict_set "sku" (VStr sku)
                      (dict_set "offer" (VStr offer)
                         (dict_set "publisher" (VStr publisher) image))))
         | _ => Raise (ValueError unpack_msg)
         end
     else if truthy vhd_sas_url then
       let image := dict_set "type" (VStr "vhd") image in
       Ok (dict_set "url" (VStr (str_of vhd_sas_url)) image)
     else
       Raise (ValueError one_of_msg)) ;;
  template <-
    _create_template vm_size test_priorities test_cases location region
      concurrency ;;
  let payload :=
    VDict
      [("location", VStr location);
       ("properties",
         VDict
           [("jobTemplateName", str_value template_name);
            ("jobTemplateInstance", template);
            ("image", VDict image)])] in
  Ok (payload, endpoint).

(** ** The [create_job] command *)

(** What the handler does to the outside world: the PUT it sends and what it
    prints ([print] of a parsed body, or of its [json.dumps]). *)
Inductive event : Type :=
| NetPut (endpoint : string) (payload : value)
| PrintRepr (v : value)
| PrintJson (v : value).

Record response : Type := { ok : bool; json : value }.

(** [ctx.obj]: the resource selectors and the authenticated session, the
    latter seen through the answer it gives to a PUT. *)
Record context : Type := {
  ctx_resource_group : string;
  ctx_subscription_id : string;
  session_put : string -> value -> response
}.

Definition _output_result (resp : response) : list event * result unit :=
  if ok resp then ([PrintJson (json resp)], Ok tt)
  else ([PrintRepr (json resp)], Raise HTTPError).

Definition create_job
  (ctx : context) (name : string)
  (marketplace_image_urn vhd_sas_url architecture template_name : option string)
  (vm_generation : value) (vm_size : option string)
  (test_priorities : list priority) (test_cases : list string)
  (location : string) (concurrency : value) (region : list string)
  : list event * result unit :=
  match
    make_job_create_request marketplace_image_urn vhd_sas_url name
      template_name (ctx_resource_group ctx) (ctx_subscription_id ctx)
      vm_size test_priorities test_cases location region concurrency
      vm_generation architecture
  with
  | Raise e => ([], Raise e)
  | Ok (payload, endpoint) =>
      let resp := session_put ctx endpoint payload in
      let (out, r) := _output_result resp in
      (NetPut endpoint payload :: out, r)
  end.

(** The network calls among the events of a run. *)
Definition is_net (e : event) : bool :=
  match e with
  | NetPut _ _ => true
  | _ => false
  end.

Definition net_calls (run : list event * result unit) : list event :=
  filter is_net (fst run).

(** ** Predicates of the properties *)

(** A null anywhere inside a value. *)
Fixpoint has_null (v : value) : bool :=
  match v with
  | VNone => true
  | VInt _ | VStr _ => false
  | VList l => existsb has_null l
  | VDict d => existsb (fun '(_, x) => has_null x) d
  end.

Definition all_digits (l : list ascii) : bool := forallb is_digit l.

(** A numeric string: an optional sign followed by one or more of the digits
    '0'..'9'. *)
Definition numeric_string (s : string) : bool :=
  match list_ascii_of_string s with
  | c :: r =>
      if Ascii.eqb c "-" || Ascii.eqb c "+"
      then nonempty r && all_digits r
      else all_digits (c :: r)
  | [] => false
  end.

Definition numeric (p : priority) : bool :=
  match p with
  | PInt _ => true
  | PStr s => numeric_string s
  end.

(** A priority with no more digits than [int] converts. *)
Definition within_digit_limit (p : priority) : bool :=
  match p with
  | PInt _ => true
  | PStr s => digit_count (list_ascii_of_string s) <=? int_max_str_digits
  end.

(** [int] returns on [p]. *)
Definition int_accepts (p : priority) : Prop := exists z, int p = Ok z.

(** The dict [_create_template] builds, written as a literal: [ps] are the
    parsed priorities. *)
Definition selection_literal (ps : list Z) (test_cases : list string)
  : list (string * value) :=
  (if nonempty ps then [("casePriority", VList (map VInt ps))] else [])
  ++ (if nonempty test_cases
      then [("caseName", VList (map VStr test_cases))] else []).

Definition template_literal (vm_size : option string) (ps : list Z)
  (test_cases regions : list string) (concurrency : value)
  : list (string * value) :=
  [("templateTags", VList [])]
  ++ (if nonempty (selection_literal ps test_cases)
      then [("selections", VList [VDict (selection_literal ps test_cases)])]
      else [])
  ++ [("region", VList (map VStr regions));
      ("vmSize", VList (if truthy vm_size then [VStr (str_of vm_size)] else []));
      ("concurrency", concurrency)].

(** [s] occurs in [t]. *)
Definition occurs_in (s t : string) : Prop :=
  exists before after : string, t = before ++ s ++ after.

(** The image object of a payload, and one of its fields. *)
Definition image_of (payload : value) : option value :=
  match item "properties" payload with
  | Some props => item "image" props
  | None => None
  end.

Definition image_field (k : string) (payload : value) : option value :=
  match image_of payload with
  | Some image => item k image
  | None => None
  end.

(** [s.count(c)] for a character *)
Fixpoint count_char (c : ascii) (s : string) : nat :=
  match s with
  | EmptyString => 0%nat
  | String c' r =>
      if Ascii.eqb c' c then S (count_char c r) else count_char c r
  end.

(** The keys of the image object of a payload, in order. *)
Definition image_keys (payload : value) : list string :=
  match image_of payload with
  | Some (VDict image) => map fst image
  | _ => []
  end.

(** ** The command line client *)

(** The commands of main.py with what they send and print.  The network is a
    function from requests to replies: it always answers, and what it answers
    is up to the server. *)
Module Cli.

Inductive method : Type := GET | POST | PUT | DELETE.

(** What a request carries: nothing, a form ([data=]) or a JSON document
    ([json=]). *)
Inductive content : Type :=
| NoBody
| Form (data : list (string * string))
| Json (payload : value).

(** [authorization] is the token of an [Authorization: Bearer <token>] header,
    that is the value interpolated in [f"Bearer {token}"]; [None] when the
    header is not set. *)
Record request : Type := {
  meth : method;
  url : string;
  authorization : option value;
  body : content
}.

(** [ok] is false when [raise_for_status] raises; [parsed] is what [json()]
    returns, [None] when the body is not JSON and [json()] raises.  The
    integers of a parsed body are within the digit limit of [int]. *)
Record reply : Type := { ok : bool; parsed : option value }.

(** The exceptions of a run: those of the payload builder and HTTPError
    ([Exn]), the error of [json()], the KeyError and the TypeError of a
    subscript, the TypeError of a call that leaves a required parameter
    without argument, and the three exceptions with which a session refuses
    to send: [InvalidHeader] and [InvalidJSONError] of requests, raised while
    it prepares the request, and [InvalidHeaderValue], the ValueError of
    http.client for a header value it finds illegal. *)
Inductive error : Type :=
| Exn (e : exn)
| JSONDecodeError
| KeyError (key : string)
| TypeError
| MissingArgument (parameter : string)
| InvalidHeader
| InvalidJSONError
| InvalidHeaderValue.

Inductive effect : Type :=
| Sent (r : request)
| Printed (v : value)
| Dumped (v : value).

Inductive outcome (A : Type) : Type :=
| Returned (a : A)
| Raised (e : error).

Arguments Returned {A} a.
Arguments Raised {A} e.

(** A computation: the effects it had, in order, and how it ended. *)
Definition io (A : Type) : Type := (list effect * outcome A)%type.

Definition ret {A : Type} (a : A) : io A := ([], Returned a).

Definition raise {A : Type} (e : error) : io A := ([], Raised e).

Definition io_bind {A B : Type} (m : io A) (k : A -> io B) : io B :=
  match m with
  | (es, Returned a) => let (es', r) := k a in ((es ++ es')%list, r)
  | (es, Raised e) => (es, Raised e)
  end.

Notation "x <~ m ;; k" := (io_bind m (fun x => k))
  (at level 61, m at next level, right associativity).

Definition lift {A : Type} (r : result A) : io A :=
  match r with
  | Ok a => ret a
  | Raise e => raise (Exn e)
  end.

Definition network : Type := request -> reply.

(** A request that goes out and is answered.  [requests.post] of [auth]
    comes down to this; a request of the session goes through
    [session_send] below, which can refuse it first. *)
Definition send (net : network) (r : request) : io reply :=
  ([Sent r], Returned (net r)).

(** [print(v)] and [print(json.dumps(v, indent=2))] *)
Definition print (v : value) : io unit := ([Printed v], Returned tt).
Definition print_dumps (v : value) : io unit := ([Dumped v], Returned tt).

(** [resp.json()] *)
Definition json (resp : reply) : io value :=
  match parsed resp with
  | Some v => ret v
  | None => raise JSONDecodeError
  end.

(** [v[k]] for a str [k] *)
Definition subscript (v : value) (k : string) : io value :=
  match v with
  | VDict d =>
      match dict_get k d with
      | Some x => ret x
      | None => raise (KeyError k)
      end
  | _ => raise TypeError
  end.

Definition _output_result (resp : reply) : io unit :=
  if ok resp then
    v <~ json resp ;; print_dumps v
  else
    v <~ json resp ;; _ <~ print v ;; raise (Exn HTTPError).

Definition auth_request (tenant_id client_id client_secret : string)
  : request :=
  {| meth := POST;
     url := "https://login.microsoftonline.com/" ++ tenant_id
            ++ "/oauth2/token";
     authorization := None;
     body := Form [("grant_type", "client_credentials");
                   ("client_id", client_id);
                   ("client_secret", client_secret);
                   ("resource", "https://management.azure.com/")] |}.

Definition auth (net : network)
  (tenant_id subscription_id client_id client_secret : string) : io value :=
  resp <~ send net (auth_request tenant_id client_id client_secret) ;;
  if ok resp then
    resp_json <~ json resp ;;
    token <~ subscript resp_json "access_token" ;;
    ret token
  else
    v <~ json resp ;; _ <~ print v ;; raise (Exn HTTPError).

(** [ctx.obj]; the session is the token of its Authorization header. *)
Record context : Type := {
  session : value;
  resource_group : string;
  subscription_id : string
}.

Definition cli (net : network)
  (resource_group client_id client_secret subscription_id tenant_id : string)
  : io context :=
  token <~ auth net tenant_id subscription_id client_id client_secret ;;
  ret {| session := token;
         resource_group := resource_group;
         subscription_id := subscription_id |}.

(** The request of [session.get(endpoint)], [session.delete(endpoint)] and
    [session.put(endpoint, json=payload)]; [url] is the endpoint as the call
    gives it, before requests quotes it. *)
Definition session_request (ctx : context) (m : method) (endpoint : string)
  (b : content) : request :=
  {| meth := m; url := endpoint; authorization := Some (session ctx);
     body := b |}.

(** How the text of a token fares at the end of the header value
    [f"Bearer {token}"].  requests accepts a value without carriage return
    and line feed, and also one whose only such character is a line feed that
    ends it ([Final_LF]); http.client refuses that one afterwards. *)
Inductive header_status : Type := Clean | Final_LF | Rejected.

Fixpoint header_status_of (s : string) : header_status :=
  match s with
  | EmptyString => Clean
  | String c r =>
      if Ascii.eqb c "013" then Rejected
      else if Ascii.eqb c "010" then
             match r with
             | EmptyString => Final_LF
             | String _ _ => Rejected
             end
      else header_status_of r
  end.

(** Only a str token brings its own characters into the header: the text of
    None, of an integer, of a list or of a dict has no line break. *)
Definition token_status (token : value) : header_status :=
  match token with
  | VStr s => header_status_of s
  | _ => Clean
  end.

(** [json.dumps] writes every value of the model except an integer with more
    digits than the limit of the conversion between [int] and [str]. *)
Fixpoint serializable (v : value) : bool :=
  match v with
  | VInt z => Z.abs z <? 10 ^ int_max_str_digits
  | VList l => forallb serializable l
  | VDict d => forallb (fun '(_, x) => serializable x) d
  | VNone | VStr _ => true
  end.

Definition serializable_content (b : content) : bool :=
  match b with
  | Json payload => serializable payload
  | NoBody | Form _ => true
  end.

(** A request of the session.  requests prepares it first, the headers
    before the body, and raises without sending when it refuses the
    Authorization value or cannot write the JSON body; http.client checks the
    header value again before anything is written. *)
Definition session_send (net : network) (ctx : context) (m : method)
  (endpoint : string) (b : content) : io reply :=
  match token_status (session ctx) with
  | Rejected => raise InvalidHeader
  | status =>
      if serializable_content b then
        match status with
        | Clean => send net (session_request ctx m endpoint b)
        | _ => raise InvalidHeaderValue
        end
      else raise InvalidJSONError
  end.

Definition list_templates (net : network) (ctx : context) : io unit :=
  let endpoint :=
    _get_endpoint "jobTemplates" (resource_group ctx) (subscription_id ctx) in
  resp <~ session_send net ctx GET endpoint NoBody ;;
  _output_result resp.

Definition get_template (net : network) (ctx : context) (name : string)
  : io unit :=
  let endpoint :=
    _get_endpoint ("jobTemplates/" ++ name) (resource_group ctx)
      (subscription_id ctx) in
  resp <~ session_send net ctx GET endpoint NoBody ;;
  _output_result resp.

Definition create_template (net : network) (ctx : context) (name : string)
  (vm_size : option string) (test_priorities : list priority)
  (test_cases : list string) (location : string) (region : list string)
  (concurrency : value) : io unit :=
  let endpoint :=
    _get_endpoint ("jobTemplates/" ++ name) (resource_group ctx)
      (subscription_id ctx) in
  template <~
    lift (_create_template vm_size test_priorities test_cases location region
            concurrency) ;;
  let payload :=
    VDict [("location", VStr location); ("name", VStr name);
           ("properties", template)] in
  resp <~ session_send net ctx PUT endpoint (Json payload) ;;
  _output_result resp.

Definition list_jobs (net : network) (ctx : context) : io unit :=
  let endpoint :=
    _get_endpoint "jobs" (resource_group ctx) (subscription_id ctx) in
  resp <~ session_send net ctx GET endpoint NoBody ;;
  _output_result resp.

Definition get_job (net : network) (ctx : context) (name : string)
  : io unit :=
  let endpoint :=
    _get_endpoint ("jobs/" ++ name) (resource_group ctx)
      (subscription_id ctx) in
  resp <~ session_send net ctx GET endpoint NoBody ;;
  _output_result resp.

Definition delete_job (net : network) (ctx : context) (name : string)
  : io unit :=
  let endpoint :=
    _get_endpoint ("jobs/" ++ name) (resource_group ctx)
      (subscription_id ctx) in
  resp <~ session_send net ctx DELETE endpoint NoBody ;;
  _output_result resp.

Definition create_job (net : network) (ctx : context) (name : string)
  (marketplace_image_urn vhd_sas_url architecture template_name
     : option string)
  (vm_generation : value) (vm_size : option string)
  (test_priorities : list priority) (test_cases : list string)
  (location : string) (concurrency : value) (region : list string)
  : io unit :=
  request <~
    lift (make_job_create_request marketplace_image_urn vhd_sas_url name
            template_name (resource_group ctx) (subscription_id ctx) vm_size
            test_priorities test_cases location region concurrency
            vm_generation architecture) ;;
  let (payload, endpoint) := request in
  resp <~ session_send net ctx PUT endpoint (Json payload) ;;
  _output_result resp.

(** A command line after click has parsed it: the subcommand with the value
    of each option its decorators declare.  Priorities, test cases and regions
    arrive as strings, the VM generation and the concurrency as integers. *)
Inductive command : Type :=
| ListTemplates
| GetTemplate (name : string)
| CreateTemplate (name : string) (vm_size : option string)
    (test_priorities test_cases : list string) (location : string)
    (region : list string)
| ListJobs
| GetJob (name : string)
| DeleteJob (name : string)
| CreateJob (name : string)
    (marketplace_image_urn vhd_sas_url architecture : option string)
    (vm_generation : Z) (template_name vm_size : option string)
    (test_priorities test_cases : list string) (location : string)
    (region : list string) (concurrency : Z).

(** A call that leaves the required parameter [parameter] of [f] without
    argument: Python raises TypeError and the body does not run. *)
Definition missing {A B : Type} (parameter : string) (f : A -> io B) : io B :=
  raise (MissingArgument parameter).

(** The subcommand callback, called by click with one keyword argument per
    declared option.  [create_template] has a parameter [concurrency] and no
    option of that name. *)
Definition invoke (net : network) (ctx : context) (c : command) : io unit :=
  match c with
  | ListTemplates => list_templates net ctx
  | GetTemplate name => get_template net ctx name
  | CreateTemplate name vm_size test_priorities test_cases location region =>
      missing "concurrency"
        (create_template net ctx name vm_size (map PStr test_priorities)
           test_cases location region)
  | ListJobs => list_jobs net ctx
  | GetJob name => get_job net ctx name
  | DeleteJob name => delete_job net ctx name
  | CreateJob name marketplace_image_urn vhd_sas_url architecture
      vm_generation template_name vm_size test_priorities test_cases location
      region concurrency =>
      create_job net ctx name marketplace_image_urn vhd_sas_url architecture
        template_name (VInt vm_generation) vm_size
        (map PStr test_priorities) test_cases location (VInt concurrency)
        region
  end.

(** A run: click calls the group callback [cli], then the subcommand. *)
Definition main (net : network)
  (resource_group client_id client_secret subscription_id tenant_id : string)
  (c : command) : io unit :=
  ctx <~ cli net resource_group client_id client_secret subscription_id
           tenant_id ;;
  invoke net ctx c.

(** The requests among the effects of a computation. *)
Definition requests {A : Type} (m : io A) : list request :=
  flat_map (fun e => match e with Sent r => [r] | _ => [] end) (fst m).

(** What was printed, in order. *)
Definition prints {A : Type} (m : io A) : list effect :=
  filter (fun e => match e with Sent _ => false | _ => true end) (fst m).

End Cli.

(** ** The built-ins on concrete inputs *)

Example int_12 : int (PStr "12") = Ok 12.
Proof. reflexivity. Qed.

Example int_signed_spaced : int (PStr "  -1_000 ") = Ok (-1000).
Proof. reflexivity. Qed.

Example int_not_a_number : int (PStr "abc") = Raise (InvalidLiteral "abc").
Proof. reflexivity. Qed.

Example int_fraction : int (PStr "1.5") = Raise (InvalidLiteral "1.5").
Proof. reflexivity. Qed.

Example split_urn :
  split ":" "Canonical:ubuntu:24_04-lts:latest"
  = ["Canonical"; "ubuntu"; "24_04-lts"; "latest"].
Proof. reflexivity. Qed.

Example split_empty_pieces : split ":" "a::b:" = ["a"; ""; "b"; ""].
Proof. reflexivity. Qed.

(** ** Truthiness, [split] and [join] *)

Lemma truthy_Some (s : string) : truthy (Some s) = true <-> s <> EmptyString.
Proof.
  destruct s; simpl; split; intro H; try reflexivity; try discriminate.
  now contradiction H.
Qed.

Lemma split_not_nil (sep : ascii) (s : string) : split sep s <> [].
Proof.
  destruct s as [|c r]; simpl; [discriminate|].
  destruct (Ascii.eqb c sep); [discriminate|].
  destruct (split sep r); discriminate.
Qed.

Lemma join_cons (sep : ascii) (c : ascii) (h : string) (t : list string) :
  join sep (String c h :: t) = String c (join sep (h :: t)).
Proof. destruct t; reflexivity. Qed.

Lemma join_split (sep : ascii) (s : string) : join sep (split sep s) = s.
Proof.
  induction s as [|c r IH]; simpl; [reflexivity|].
  destruct (Ascii.eqb_spec c sep) as [->|_].
  - destruct (split sep r) as [|h t] eqn:E.
    + now apply split_not_nil in E.
    + simpl in *. now rewrite IH.
  - destruct (split sep r) as [|h t].
    + simpl in IH. now subst r.
    + rewrite join_cons. now rewrite IH.
Qed.

Lemma split_no_sep (sep : ascii) (s : string) :
  Forall (fun p => contains sep p = false) (split sep s).
Proof.
  induction s as [|c r IH]; simpl.
  - constructor; [reflexivity | constructor].
  - destruct (Ascii.eqb c sep) eqn:E.
    + constructor; [reflexivity | exact IH].
    + destruct (split sep r) as [|h t].
      * constructor; [simpl; now rewrite E | constructor].
      * inversion IH as [|? ? Hh Ht]; subst.
        constructor; [simpl; now rewrite E, Hh | exact Ht].
Qed.

Lemma split_four (s : string) :
  length (split ":" s) = 4%nat ->
  exists publisher offer sku version,
    split ":" s = [publisher; offer; sku; version].
Proof.
  destruct (split ":" s) as [|a [|b [|c [|d [|e l]]]]]; simpl;
    try discriminate.
  intros _. now exists a, b, c, d.
Qed.

Lemma split_four_truthy (s : string) :
  length (split ":" s) = 4%nat -> truthy (Some s) = true.
Proof. destruct s; simpl; [discriminate | reflexivity]. Qed.

Lemma append_empty_r (s : string) : s ++ EmptyString = s.
Proof. induction s as [|c r IH]; simpl; [reflexivity | now rewrite IH]. Qed.

(** ** [int] and the comprehension over the priorities *)

Lemma comprehension_Forall2 {A B : Type} (f : A -> result B) (l : list A)
  (bs : list B) :
  comprehension f l = Ok bs <-> Forall2 (fun a b => f a = Ok b) l bs.
Proof.
  revert bs; induction l as [|a r IH]; intros bs; simpl.
  - split; intro H.
    + injection H as <-. constructor.
    + inversion H. reflexivity.
  - split; intro H.
    + destruct (f a) as [b|e] eqn:Ea; simpl in H; [|discriminate].
      destruct (comprehension f r) as [bs'|e] eqn:Er; simpl in H;
        [|discriminate].
      injection H as <-. constructor; [exact Ea | now apply IH].
    + inversion H as [|? b ? bs' Ha Hr]; subst.
      rewrite Ha; simpl. apply IH in Hr. now rewrite Hr.
Qed.

Lemma comprehension_total {A B : Type} (f : A -> result B) (l : list A) :
  Forall (fun a => exists b, f a = Ok b) l ->
  exists bs, comprehension f l = Ok bs.
Proof.
  induction 1 as [|a r [b Hb] _ [bs IH]]; simpl.
  - now exists [].
  - rewrite Hb, IH; simpl. now exists (b :: bs).
Qed.

Lemma int_raises (p : priority) (e : exn) :
  int p = Raise e -> exists s, e = InvalidLiteral s.
Proof.
  destruct p as [s|z]; simpl; [|discriminate].
  destruct (int_of_string s); [discriminate|].
  intros [= <-]. now exists s.
Qed.

Lemma comprehension_int_raises (l : list priority) (e : exn) :
  comprehension int l = Raise e -> exists s, e = InvalidLiteral s.
Proof.
  induction l as [|p r IH]; simpl; [discriminate|].
  destruct (int p) as [z|e'] eqn:Ep; simpl.
  - destruct (comprehension int r) as [zs|e'']; simpl; [discriminate|].
    intros [= <-]. now apply IH.
  - intros [= <-]. now apply int_raises in Ep.
Qed.

Lemma digit_not_space (c : ascii) : is_digit c = true -> is_space c = false.
Proof.
  destruct c as [b0 b1 b2 b3 b4 b5 b6 b7].
  destruct b0, b1, b2, b3, b4, b5, b6, b7; simpl; intro H;
    try reflexivity; discriminate H.
Qed.

Lemma lstrip_id (l : list ascii) :
  Forall (fun c => is_space c = false) l -> lstrip l = l.
Proof. destruct 1 as [|c r Hc _]; simpl; [reflexivity | now rewrite Hc]. Qed.

Lemma strip_id (l : list ascii) :
  Forall (fun c => is_space c = false) l -> strip l = l.
Proof.
  intro H. unfold strip. rewrite (lstrip_id l H).
  rewrite lstrip_id; [apply rev_involutive|].
  apply Forall_forall. intros c Hc. apply in_rev in Hc.
  revert c Hc. now apply Forall_forall.
Qed.

Lemma all_digits_no_space (l : list ascii) :
  all_digits l = true -> Forall (fun c => is_space c = false) l.
Proof.
  unfold all_digits. rewrite forallb_forall. intro H.
  apply Forall_forall. intros c Hc. now apply digit_not_space, H.
Qed.

Lemma digits_all (l : list ascii) :
  all_digits l = true ->
  forall (after_digit : bool) (acc : Z),
    after_digit = true \/ l <> [] ->
    exists z, digits after_digit acc l = Some z.
Proof.
  induction l as [|c r IH]; simpl; intros H after_digit acc Hne.
  - destruct Hne as [-> | Hne]; [now exists acc | now contradiction Hne].
  - apply andb_true_iff in H as [Hc Hr]. rewrite Hc.
    apply IH; [exact Hr | now left].
Qed.

Lemma numeric_string_accepted (s : string) :
  numeric_string s = true ->
  digit_count (list_ascii_of_string s) <= int_max_str_digits ->
  exists z, int_of_string s = Some z.
Proof.
  unfold numeric_string, int_of_string.
  destruct (list_ascii_of_string s) as [|c r]; [discriminate|].
  destruct (Ascii.eqb c "-" || Ascii.eqb c "+") eqn:Esign.
  - intros H Hlimit. apply andb_true_iff in H as [Hne Hr].
    assert (Hc : is_space c = false /\ is_digit c = false).
    { apply orb_true_iff in Esign as [E | E];
        apply Ascii.eqb_eq in E; subst c; split; reflexivity. }
    destruct Hc as [Hc Hd].
    rewrite strip_id by (constructor; [exact Hc | now apply all_digits_no_space]).
    unfold digit_count in Hlimit. cbn [filter] in Hlimit. rewrite Hd in Hlimit.
    apply Z.leb_le in Hlimit. unfold literal, digit_count. rewrite Hlimit.
    destruct (digits_all r Hr false 0) as [z Hz].
    { right. destruct r; [discriminate Hne | discriminate]. }
    rewrite Hz. destruct (Ascii.eqb c "-"); simpl.
    + now exists (- z).
    + simpl in Esign. rewrite Esign. now exists z.
  - intros H Hlimit. rewrite strip_id by now apply all_digits_no_space.
    apply orb_false_iff in Esign as [-> ->].
    apply Z.leb_le in Hlimit. unfold literal. rewrite Hlimit.
    apply digits_all; [exact H | right; discriminate].
Qed.

Lemma numeric_accepted (p : priority) :
  numeric p = true -> within_digit_limit p = true -> int_accepts p.
Proof.
  destruct p as [s|z]; simpl; intros H Hlimit.
  - apply Z.leb_le in Hlimit.
    destruct (numeric_string_accepted s H Hlimit) as [z Hz].
    exists z. simpl. now rewrite Hz.
  - now exists z.
Qed.

(** ** The template as a literal *)

Lemma _create_template_literal
  (vm_size : option string) (test_priorities : list priority)
  (test_cases : list string) (location : string) (regions : list string)
  (concurrency : value) (ps : list Z) :
  comprehension int test_priorities = Ok ps ->
  _create_template vm_size test_priorities test_cases location regions
    concurrency
  = Ok (VDict (template_literal vm_size ps test_cases regions concurrency)).
Proof.
  intro Hps. unfold _create_template, template_literal, selection_literal.
  assert (Hreg : (if nonempty regions then VList (map VStr regions)
                  else VList []) = VList (map VStr regions))
    by (destruct regions; reflexivity).
  rewrite Hreg.
  assert (Hvm : (if truthy vm_size then VList [str_value vm_size]
                 else VList [])
                = VList (if truthy vm_size then [VStr (str_of vm_size)]
                         else []))
    by (destruct vm_size as [[|c s]|]; reflexivity).
  rewrite Hvm.
  destruct test_priorities as [|p r].
  - injection Hps as <-. destruct test_cases; reflexivity.
  - rewrite Hps. simpl in Hps.
    destruct (int p) as [z|]; simpl in Hps; [|discriminate].
    destruct (comprehension int r) as [zs|]; simpl in Hps; [|discriminate].
    injection Hps as <-. destruct test_cases; reflexivity.
Qed.

Lemma _create_template_raises
  (vm_size : option string) (test_priorities : list priority)
  (test_cases : list string) (location : string) (regions : list string)
  (concurrency : value) (e : exn) :
  _create_template vm_size test_priorities test_cases location regions
    concurrency = Raise e ->
  exists s, e = InvalidLiteral s.
Proof.
  destruct (comprehension int test_priorities) as [ps|e'] eqn:E.
  - intro H.
    rewrite (_create_template_literal _ _ _ _ _ _ _ E) in H. discriminate.
  - unfold _create_template. destruct test_priorities as [|p r].
    + discriminate.
    + cbn [nonempty]. rewrite E. simpl. intros [= <-].
      now apply comprehension_int_raises in E.
Qed.

(** ** Validation of the image source *)

Ltac image_branch Hurn Hvhd :=
  unfold make_job_create_request; rewrite ?Hurn, ?Hvhd; cbn [andb bind].

(** C1. When [marketplace_image_urn] and [vhd_sas_url] are both non-empty, or
    both empty or absent, [make_job_create_request] raises a ValueError (the
    "Only one of" message in the first case, the "One of" message in the
    second).  The function is a pure function of its arguments, and the
    [create_job] handler that calls it ends with that exception without having
    sent its PUT or produced any other event. *)
Theorem image_source_both_or_neither_raises
  (ctx : context) (marketplace_image_urn vhd_sas_url : option string)
  (job_name : string) (template_name : option string)
  (resource_group subscription_id : string) (vm_size : option string)
  (test_priorities : list priority) (test_cases : list string)
  (location : string) (region : list string)
  (concurrency vm_generation : value) (architecture : option string) :
  (truthy marketplace_image_urn = true /\ truthy vhd_sas_url = true)
  \/ (truthy marketplace_image_urn = false /\ truthy vhd_sas_url = false) ->
  let error :=
    ValueError (if truthy marketplace_image_urn then only_one_msg
                else one_of_msg) in
  make_job_create_request marketplace_image_urn vhd_sas_url job_name
    template_name resource_group subscription_id vm_size test_priorities
    test_cases location region concurrency vm_generation architecture
  = Raise error
  /\ create_job ctx job_name marketplace_image_urn vhd_sas_url architecture
       template_name vm_generation vm_size test_priorities test_cases
       location concurrency region
     = ([], Raise error)
  /\ net_calls
       (create_job ctx job_name marketplace_image_urn vhd_sas_url
          architecture template_name vm_generation vm_size test_priorities
          test_cases location concurrency region) = [].
Proof.
  intros H error; subst error.
  assert (Hreq : forall rg sub,
    make_job_create_request marketplace_image_urn vhd_sas_url job_name
      template_name rg sub vm_size test_priorities test_cases location region
      concurrency vm_generation architecture
    = Raise (ValueError (if truthy marketplace_image_urn then only_one_msg
                         else one_of_msg))).
  { intros rg sub. destruct H as [[Hu Hv] | [Hu Hv]];
      image_branch Hu Hv; reflexivity. }
  split; [apply Hreq|].
  unfold net_calls, create_job. rewrite Hreq. split; reflexivity.
Qed.

Lemma image_source_both_or_neither_raises_witness :
  make_job_create_request (Some "a:b:c:d") (Some "http://foobar") "testjob"
    (Some "testtemplate") "testgroup" "testsub" (Some "testsize")
    [PInt 1; PInt 2] [] "testlocation" ["testregion"] (VInt 0) (VInt 2)
    (Some "x64")
  = Raise (ValueError only_one_msg).
Proof.
  apply (image_source_both_or_neither_raises
           {| ctx_resource_group := "testgroup";
              ctx_subscription_id := "testsub";
              session_put := fun _ _ => {| ok := true; json := VNone |} |}
           (Some "a:b:c:d") (Some "http://foobar")).
  left; split; reflexivity.
Defined.

(** C2. With an empty or absent [vhd_sas_url] and a non-empty
    [marketplace_image_urn] that does not split on ':' into exactly 4 parts,
    [make_job_create_request] raises a ValueError whose message ends with the
    URN as it was given. *)
Theorem malformed_urn_raises_naming_it
  (urn : string) (vhd_sas_url : option string)
  (job_name : string) (template_name : option string)
  (resource_group subscription_id : string) (vm_size : option string)
  (test_priorities : list priority) (test_cases : list string)
  (location : string) (region : list string)
  (concurrency vm_generation : value) (architecture : option string) :
  truthy vhd_sas_url = false ->
  urn <> EmptyString ->
  length (split ":" urn) <> 4%nat ->
  exists msg,
    make_job_create_request (Some urn) vhd_sas_url job_name template_name
      resource_group subscription_id vm_size test_priorities test_cases
      location region concurrency vm_generation architecture
    = Raise (ValueError msg)
    /\ msg = urn_format_msg urn
    /\ occurs_in urn msg.
Proof.
  intros Hv Hu Hlen. exists (urn_format_msg urn).
  apply truthy_Some in Hu.
  split; [|split; [reflexivity|]].
  - image_branch Hu Hv. cbn [str_of].
    apply Nat.eqb_neq in Hlen. rewrite Hlen. reflexivity.
  - exists ("marketplace_image_urn should be in the format of "
            ++ "'publisher:offer:sku:version', got "), EmptyString.
    rewrite append_empty_r. reflexivity.
Qed.

Lemma malformed_urn_raises_naming_it_witness :
  exists msg,
    make_job_create_request (Some "Canonical:ubuntu") None "testjob"
      (Some "testtemplate") "testgroup" "testsub" (Some "testsize")
      [PInt 1; PInt 2] [] "testlocation" ["testregion"] (VInt 0) (VInt 2)
      (Some "x64")
    = Raise (ValueError msg)
    /\ msg = urn_format_msg "Canonical:ubuntu"
    /\ occurs_in "Canonical:ubuntu" msg.
Proof.
  apply malformed_urn_raises_naming_it;
    [reflexivity | discriminate | simpl; lia].
Defined.

(** C9. With both image sources non-empty the "Only one of" ValueError is
    raised whatever the form of the URN, and a run that ends with the
    malformed-URN ValueError is one whose [vhd_sas_url] was empty or absent. *)
Theorem both_sources_checked_before_urn_format
  (marketplace_image_urn vhd_sas_url : option string)
  (job_name : string) (template_name : option string)
  (resource_group subscription_id : string) (vm_size : option string)
  (test_priorities : list priority) (test_cases : list string)
  (location : string) (region : list string)
  (concurrency vm_generation : value) (architecture : option string) :
  let outcome :=
    make_job_create_request marketplace_image_urn vhd_sas_url job_name
      template_name resource_group subscription_id vm_size test_priorities
      test_cases location region concurrency vm_generation architecture in
  (truthy marketplace_image_urn = true -> truthy vhd_sas_url = true ->
   outcome = Raise (ValueError only_one_msg))
  /\ (forall named : string,
        outcome = Raise (ValueError (urn_format_msg named)) ->
        truthy vhd_sas_url = false).
Proof.
  intro outcome; subst outcome. split.
  - intros Hu Hv. image_branch Hu Hv. reflexivity.
  - intros named.
    destruct (truthy vhd_sas_url) eqn:Hv; [|reflexivity].
    destruct (truthy marketplace_image_urn) eqn:Hu; image_branch Hu Hv.
    + unfold only_one_msg, urn_format_msg. simpl. discriminate.
    + destruct (_create_template vm_size test_priorities test_cases location
                  region concurrency) as [t|e] eqn:Et; cbn [bind].
      * discriminate.
      * apply _create_template_raises in Et as [s ->]. discriminate.
Qed.

Lemma both_sources_checked_before_urn_format_witness :
  make_job_create_request (Some "not-a-urn") (Some "http://foobar") "testjob"
    (Some "testtemplate") "testgroup" "testsub" (Some "testsize")
    [PInt 1; PInt 2] [] "testlocation" ["testregion"] (VInt 0) (VInt 2)
    (Some "x64")
  = Raise (ValueError only_one_msg).
Proof.
  apply (both_sources_checked_before_urn_format
           (Some "not-a-urn") (Some "http://foobar")); reflexivity.
Defined.

(** ** The image object of a request *)

Lemma priorities_parsed (test_priorities : list priority) :
  Forall int_accepts test_priorities ->
  exists ps, comprehension int test_priorities = Ok ps.
Proof. apply comprehension_total. Qed.

(** C3, as stated, at an input with a priority that is not a number: the VHD
    source is given alone and the call still raises, from [int]. *)
Lemma vhd_request_bad_priority_raises :
  truthy (Some "http://foobar") = true
  /\ truthy (Some "") = false
  /\ make_job_create_request (Some "") (Some "http://foobar") "testjob"
       (Some "testtemplate") "testgroup" "testsub" (Some "testsize")
       [PStr "high"] [] "testlocation" ["testregion"] (VInt 0) (VInt 2)
       (Some "x64")
     = Raise (InvalidLiteral "high").
Proof. repeat split. Qed.

(** C3, amended.  With a non-empty [vhd_sas_url], an empty or absent
    [marketplace_image_urn] and priorities that [int] accepts,
    [make_job_create_request] returns; the image object of the payload is
    vhdGeneration, architecture, type = "vhd" and url = the given URL, and has
    none of the keys publisher, offer, sku, version. *)
Theorem vhd_request_image
  (marketplace_image_urn : option string) (url : string)
  (job_name : string) (template_name : option string)
  (resource_group subscription_id : string) (vm_size : option string)
  (test_priorities : list priority) (test_cases : list string)
  (location : string) (region : list string)
  (concurrency vm_generation : value) (architecture : option string) :
  truthy marketplace_image_urn = false ->
  url <> EmptyString ->
  Forall int_accepts test_priorities ->
  exists payload,
    make_job_create_request marketplace_image_urn (Some url) job_name
      template_name resource_group subscription_id vm_size test_priorities
      test_cases location region concurrency vm_generation architecture
    = Ok (payload,
          _get_endpoint ("jobs/" ++ job_name) resource_group subscription_id)
    /\ image_of payload
       = Some (VDict [("vhdGeneration", vm_generation);
                      ("architecture", str_value architecture);
                      ("type", VStr "vhd");
                      ("url", VStr url)])
    /\ image_field "type" payload = Some (VStr "vhd")
    /\ image_field "url" payload = Some (VStr url)
    /\ image_field "publisher" payload = None
    /\ image_field "offer" payload = None
    /\ image_field "sku" payload = None
    /\ image_field "version" payload = None.
Proof.
  intros Hu Hv Hps. apply truthy_Some in Hv.
  destruct (priorities_parsed _ Hps) as [ps Eps].
  image_branch Hu Hv.
  rewrite (_create_template_literal _ _ _ _ _ _ _ Eps). cbn [bind].
  eexists. split; [reflexivity|]. repeat split.
Qed.

Lemma vhd_request_image_witness :
  exists payload,
    make_job_create_request None (Some "http://foobar") "testjob"
      (Some "testtemplate") "testgroup" "testsub" (Some "testsize")
      [PStr "1"; PStr "2"] ["smoke_test"] "testlocation" ["testregion"]
      (VInt 0) (VInt 2) (Some "x64")
    = Ok (payload, _get_endpoint ("jobs/" ++ "testjob") "testgroup" "testsub")
    /\ image_of payload
       = Some (VDict [("vhdGeneration", VInt 2);
                      ("architecture", str_value (Some "x64"));
                      ("type", VStr "vhd");
                      ("url", VStr "http://foobar")])
    /\ image_field "type" payload = Some (VStr "vhd")
    /\ image_field "url" payload = Some (VStr "http://foobar")
    /\ image_field "publisher" payload = None
    /\ image_field "offer" payload = None
    /\ image_field "sku" payload = None
    /\ image_field "version" payload = None.
Proof.
  apply vhd_request_image; [reflexivity | discriminate |].
  repeat constructor; eexists; reflexivity.
Defined.

(** C4, as stated, at an input with a priority that is not a number: the URN
    has its four parts, no VHD is given, and the call still raises, from
    [int]. *)
Lemma marketplace_request_bad_priority_raises :
  split ":" "Canonical:ubuntu:server:latest"
  = ["Canonical"; "ubuntu"; "server"; "latest"]
  /\ truthy None = false
  /\ make_job_create_request (Some "Canonical:ubuntu:server:latest") None
       "testjob" (Some "testtemplate") "testgroup" "testsub" (Some "testsize")
       [PStr "1"; PStr "p2"] [] "testlocation" ["testregion"] (VInt 0)
       (VInt 2) (Some "x64")
     = Raise (InvalidLiteral "p2").
Proof. repeat split. Qed.

(** C4, amended.  With an empty or absent [vhd_sas_url], a
    [marketplace_image_urn] that splits on ':' into exactly 4 parts and
    priorities that [int] accepts, [make_job_create_request] returns; the
    image object of the payload has type = "marketplace" and publisher, offer,
    sku, version equal to the four parts, in that order. *)
Theorem marketplace_request_image
  (urn : string) (vhd_sas_url : option string)
  (job_name : string) (template_name : option string)
  (resource_group subscription_id : string) (vm_size : option string)
  (test_priorities : list priority) (test_cases : list string)
  (location : string) (region : list string)
  (concurrency vm_generation : value) (architecture : option string) :
  truthy vhd_sas_url = false ->
  length (split ":" urn) = 4%nat ->
  Forall int_accepts test_priorities ->
  exists payload publisher offer sku version,
    split ":" urn = [publisher; offer; sku; version]
    /\ make_job_create_request (Some urn) vhd_sas_url job_name template_name
         resource_group subscription_id vm_size test_priorities test_cases
         location region concurrency vm_generation architecture
       = Ok (payload,
             _get_endpoint ("jobs/" ++ job_name) resource_group
               subscription_id)
    /\ image_field "type" payload = Some (VStr "marketplace")
    /\ image_field "publisher" payload = Some (VStr publisher)
    /\ image_field "offer" payload = Some (VStr offer)
    /\ image_field "sku" payload = Some (VStr sku)
    /\ image_field "version" payload = Some (VStr version).
Proof.
  intros Hv Hlen Hps.
  pose proof (split_four_truthy urn Hlen) as Hu.
  destruct (split_four urn Hlen) as (publisher & offer & sku & version & E).
  destruct (priorities_parsed _ Hps) as [ps Eps].
  image_branch Hu Hv. cbn [str_of]. rewrite E. cbn [length Nat.eqb negb].
  rewrite (_create_template_literal _ _ _ _ _ _ _ Eps). cbn [bind].
  eexists. exists publisher, offer, sku, version.
  split; [reflexivity|]. split; [reflexivity|]. repeat split.
Qed.

Lemma marketplace_request_image_witness :
  exists payload publisher offer sku version,
    split ":" "Canonical:ubuntu:server:latest"
    = [publisher; offer; sku; version]
    /\ make_job_create_request (Some "Canonical:ubuntu:server:latest")
         (Some "") "testjob" (Some "testtemplate") "testgroup" "testsub"
         (Some "testsize") [PInt 0; PStr "1"] [] "testlocation"
         ["testregion"] (VInt 0) (VInt 2) (Some "x64")
       = Ok (payload,
             _get_endpoint ("jobs/" ++ "testjob") "testgroup" "testsub")
    /\ image_field "type" payload = Some (VStr "marketplace")
    /\ image_field "publisher" payload = Some (VStr publisher)
    /\ image_field "offer" payload = Some (VStr offer)
    /\ image_field "sku" payload = Some (VStr sku)
    /\ image_field "version" payload = Some (VStr version).
Proof.
  apply marketplace_request_image; [reflexivity | reflexivity |].
  repeat constructor; eexists; reflexivity.
Defined.

(** C10. When [make_job_create_request] returns for a URN that splits on ':'
    into exactly 4 parts, the publisher, offer, sku and version of the image
    object contain no ':' and, joined with ':' in that order, give back the
    URN. *)
Theorem accepted_urn_round_trip
  (urn : string) (vhd_sas_url : option string)
  (job_name : string) (template_name : option string)
  (resource_group subscription_id : string) (vm_size : option string)
  (test_priorities : list priority) (test_cases : list string)
  (location : string) (region : list string)
  (concurrency vm_generation : value) (architecture : option string)
  (payload : value) (endpoint : string) :
  length (split ":" urn) = 4%nat ->
  make_job_create_request (Some urn) vhd_sas_url job_name template_name
    resource_group subscription_id vm_size test_priorities test_cases
    location region concurrency vm_generation architecture
  = Ok (payload, endpoint) ->
  exists publisher offer sku version,
    image_field "publisher" payload = Some (VStr publisher)
    /\ image_field "offer" payload = Some (VStr offer)
    /\ image_field "sku" payload = Some (VStr sku)
    /\ image_field "version" payload = Some (VStr version)
    /\ contains ":" publisher = false
    /\ contains ":" offer = false
    /\ contains ":" sku = false
    /\ contains ":" version = false
    /\ join ":" [publisher; offer; sku; version] = urn.
Proof.
  intros Hlen.
  pose proof (split_four_truthy urn Hlen) as Hu.
  destruct (split_four urn Hlen) as (publisher & offer & sku & version & E).
  pose proof (split_no_sep ":" urn) as Hsep.
  pose proof (join_split ":" urn) as Hjoin.
  rewrite E in Hsep, Hjoin.
  destruct (truthy vhd_sas_url) eqn:Hv; image_branch Hu Hv; [discriminate|].
  cbn [str_of]. rewrite E. cbn [length Nat.eqb negb].
  destruct (_create_template vm_size test_priorities test_cases location
              region concurrency) as [t|e]; cbn [bind]; [|discriminate].
  intros [= <- _].
  exists publisher, offer, sku, version.
  inversion Hsep as [|? ? Hp Hsep1]; subst.
  inversion Hsep1 as [|? ? Ho Hsep2]; subst.
  inversion Hsep2 as [|? ? Hs Hsep3]; subst.
  inversion Hsep3 as [|? ? Hver _]; subst.
  repeat split; assumption.
Qed.

Lemma accepted_urn_round_trip_witness :
  let payload :=
    VDict
      [("location", VStr "testlocation");
       ("properties",
         VDict
           [("jobTemplateName", VStr "testtemplate");
            ("jobTemplateInstance",
              VDict
                [("templateTags", VList []);
                 ("region", VList [VStr "testregion"]);
                 ("vmSize", VList []);
                 ("concurrency", VInt 0)]);
            ("image",
              VDict
                [("vhdGeneration", VInt 2);
                 ("architecture", VStr "x64");
                 ("type", VStr "marketplace");
                 ("publisher", VStr "Canonical");
                 ("offer", VStr "");
                 ("sku", VStr "server");
                 ("version", VStr "latest")])])] in
  exists publisher offer sku version,
    image_field "publisher" payload = Some (VStr publisher)
    /\ image_field "offer" payload = Some (VStr offer)
    /\ image_field "sku" payload = Some (VStr sku)
    /\ image_field "version" payload = Some (VStr version)
    /\ contains ":" publisher = false
    /\ contains ":" offer = false
    /\ contains ":" sku = false
    /\ contains ":" version = false
    /\ join ":" [publisher; offer; sku; version] = "Canonical::server:latest".
Proof.
  intro payload.
  apply (accepted_urn_round_trip "Canonical::server:latest" None "testjob"
           (Some "testtemplate") "testgroup" "testsub" None [] []
           "testlocation" ["testregion"] (VInt 0) (VInt 2) (Some "x64")
           payload
           (_get_endpoint ("jobs/" ++ "testjob") "testgroup" "testsub"));
    reflexivity.
Defined.

(** C7. The request of the unit test, for every concurrency and VM
    generation: the endpoint and the payload are the expected ones, with the
    priorities given as the integers 1, 2 or as the strings "1", "2". *)
Theorem test_create_job (concurrency vm_generation : value) :
  let expected :=
    Ok (VDict
          [("location", VStr "testlocation");
           ("properties",
             VDict
               [("jobTemplateName", VStr "testtemplate");
                ("jobTemplateInstance",
                  VDict
                    [("templateTags", VList []);
                     ("selections",
                       VList [VDict [("casePriority",
                                        VList [VInt 1; VInt 2])]]);
                     ("region", VList [VStr "testregion"]);
                     ("vmSize", VList [VStr "testsize"]);
                     ("concurrency", concurrency)]);
                ("image",
                  VDict
                    [("vhdGeneration", vm_generation);
                     ("architecture", VStr "testarch");
                     ("type", VStr "vhd");
                     ("url", VStr "http://foobar")])])],
        "https://eastus2euap.management.azure.com/subscriptions/testsub/resourceGroups/testgroup/providers/Microsoft.AzureImageTestingForLinux/jobs/testjob?api-version=2023-08-01-preview")
  in
  make_job_create_request (Some "") (Some "http://foobar") "testjob"
    (Some "testtemplate") "testgroup" "testsub" (Some "testsize")
    [PInt 1; PInt 2] [] "testlocation" ["testregion"] concurrency
    vm_generation (Some "testarch")
  = expected
  /\ make_job_create_request (Some "") (Some "http://foobar") "testjob"
       (Some "testtemplate") "testgroup" "testsub" (Some "testsize")
       [PStr "1"; PStr "2"] [] "testlocation" ["testregion"] concurrency
       vm_generation (Some "testarch")
     = expected.
Proof. split; reflexivity. Qed.

(** ** The template *)

Lemma no_null_ints (l : list Z) : existsb has_null (map VInt l) = false.
Proof. induction l; simpl; [reflexivity | assumption]. Qed.

Lemma no_null_strs (l : list string) : existsb has_null (map VStr l) = false.
Proof. induction l; simpl; [reflexivity | assumption]. Qed.

Lemma parsed_priorities (test_priorities : list priority) (ints : list Z) :
  Forall2 (fun p z => int p = Ok z) test_priorities ints ->
  comprehension int test_priorities = Ok ints
  /\ (test_priorities <> [] <-> ints <> []).
Proof.
  intro H. split; [now apply comprehension_Forall2|].
  destruct H; split; intro Hne; try discriminate; now contradiction Hne.
Qed.

Ltac key_cases k :=
  repeat match goal with
    | |- context [String.eqb k ?key] => destruct (String.eqb_spec k key)
    end.

(** C5. Whenever the priorities parse, [_create_template] returns a template
    that has the key selections exactly when [test_priorities] or
    [test_cases] is non-empty; the key then holds a one-element list whose
    object has casePriority (the parsed integers, in order) exactly when
    [test_priorities] is non-empty, caseName (the test cases as given) exactly
    when [test_cases] is non-empty, and no other key.  Priorities 1, 2 with no
    test case give selections = [{casePriority: [1, 2]}]; no priority and no
    test case give a template without selections. *)
Theorem selections_follow_the_filters :
  (forall (vm_size : option string) (test_priorities : list priority)
          (test_cases : list string) (location : string)
          (regions : list string) (concurrency : value) (ints : list Z),
      Forall2 (fun p z => int p = Ok z) test_priorities ints ->
      exists template,
        _create_template vm_size test_priorities test_cases location regions
          concurrency = Ok template
        /\ (has_key "selections" template = true
            <-> test_priorities <> [] \/ test_cases <> [])
        /\ (test_priorities <> [] \/ test_cases <> [] ->
            exists selection,
              item "selections" template = Some (VList [selection])
              /\ (has_key "casePriority" selection = true
                  <-> test_priorities <> [])
              /\ (test_priorities <> [] ->
                  item "casePriority" selection
                  = Some (VList (map VInt ints)))
              /\ (has_key "caseName" selection = true <-> test_cases <> [])
              /\ (test_cases <> [] ->
                  item "caseName" selection
                  = Some (VList (map VStr test_cases)))
              /\ (forall k, has_key k selection = true ->
                            k = "casePriority" \/ k = "caseName")))
  /\ (forall (vm_size : option string) (location : string)
             (regions : list string) (concurrency : value)
             (test_priorities : list priority),
        test_priorities = [PInt 1; PInt 2]
        \/ test_priorities = [PStr "1"; PStr "2"] ->
        exists template,
          _create_template vm_size test_priorities [] location regions
            concurrency = Ok template
          /\ item "selections" template
             = Some (VList [VDict [("casePriority", VList [VInt 1; VInt 2])]]))
  /\ (forall (vm_size : option string) (location : string)
             (regions : list string) (concurrency : value),
        exists template,
          _create_template vm_size [] [] location regions concurrency
          = Ok template
          /\ has_key "selections" template = false).
Proof.
  split; [|split].
  - intros vm_size test_priorities test_cases location regions concurrency
      ints H.
    destruct (parsed_priorities _ _ H) as [Eps _].
    rewrite (_create_template_literal _ _ _ _ _ _ _ Eps).
    eexists; split; [reflexivity|].
    unfold template_literal, selection_literal.
    destruct H as [|p z r zs Hp Hr]; destruct test_cases as [|c cs];
      cbn -[String.eqb].
    + split.
      * split; [discriminate | intros [Hne | Hne]; now contradiction Hne].
      * intros [Hne | Hne]; now contradiction Hne.
    + split; [split; [now right | reflexivity]|]. intros _.
      eexists; split; [reflexivity|]. cbn -[String.eqb].
      repeat split; try discriminate; try (intro Hne; now contradiction Hne).
      intros k. unfold has_key; cbn -[String.eqb]. key_cases k; auto.
      discriminate.
    + split; [split; [now left | reflexivity]|]. intros _.
      eexists; split; [reflexivity|]. cbn -[String.eqb].
      repeat split; try discriminate; try (intro Hne; now contradiction Hne).
      intros k. unfold has_key; cbn -[String.eqb]. key_cases k; auto.
      discriminate.
    + split; [split; [now left | reflexivity]|]. intros _.
      eexists; split; [reflexivity|]. cbn -[String.eqb].
      repeat split; try discriminate.
      intros k. unfold has_key; cbn -[String.eqb]. key_cases k; auto.
      discriminate.
  - intros vm_size location regions concurrency test_priorities [-> | ->];
      (eexists; split;
       [ apply _create_template_literal; reflexivity | reflexivity ]).
  - intros vm_size location regions concurrency.
    eexists; split;
      [ apply _create_template_literal; reflexivity | reflexivity ].
Qed.

Lemma selections_follow_the_filters_witness :
  exists template,
    _create_template (Some "testsize") [PStr "2"; PInt 0] ["smoke_test"]
      "testlocation" ["testregion"] (VInt 0)
    = Ok template
    /\ item "selections" template
       = Some (VList [VDict [("casePriority", VList [VInt 2; VInt 0]);
                             ("caseName", VList [VStr "smoke_test"])]]).
Proof.
  destruct (proj1 selections_follow_the_filters (Some "testsize")
              [PStr "2"; PInt 0] ["smoke_test"] "testlocation"
              ["testregion"] (VInt 0) [2; 0])
    as (template & E & _).
  - repeat constructor.
  - exists template. split; [exact E|].
    injection E as <-. reflexivity.
Defined.

(** C6. Whenever the priorities parse, the template [_create_template]
    returns has the keys region and vmSize, both lists: region holds the given
    regions (the empty list when there are none), vmSize holds the VM size
    alone when it is a non-empty string and is the empty list when it is empty
    or absent.  The template contains a null only if the caller passed one as
    the concurrency; with an integer concurrency it contains none. *)
Theorem region_and_vm_size_are_sequences
  (vm_size : option string) (test_priorities : list priority)
  (test_cases : list string) (location : string) (regions : list string)
  (concurrency : value) (ints : list Z) :
  Forall2 (fun p z => int p = Ok z) test_priorities ints ->
  exists template,
    _create_template vm_size test_priorities test_cases location regions
      concurrency = Ok template
    /\ item "region" template = Some (VList (map VStr regions))
    /\ (regions = [] -> item "region" template = Some (VList []))
    /\ (forall s, vm_size = Some s -> s <> EmptyString ->
                  item "vmSize" template = Some (VList [VStr s]))
    /\ (truthy vm_size = false -> item "vmSize" template = Some (VList []))
    /\ has_null template = has_null concurrency
    /\ (forall n, concurrency = VInt n -> has_null template = false).
Proof.
  intro H. destruct (parsed_priorities _ _ H) as [Eps _].
  rewrite (_create_template_literal _ _ _ _ _ _ _ Eps).
  eexists; split; [reflexivity|].
  assert (Hnull :
    has_null (VDict (template_literal vm_size ints test_cases regions
                       concurrency)) = has_null concurrency).
  { unfold template_literal, selection_literal.
    destruct ints, test_cases, vm_size as [[|ch tl]|]; cbn;
      rewrite ?no_null_ints, ?no_null_strs, ?orb_false_r; reflexivity. }
  assert (Hregion :
    item "region" (VDict (template_literal vm_size ints test_cases regions
                            concurrency)) = Some (VList (map VStr regions))).
  { unfold template_literal, selection_literal.
    destruct ints, test_cases; reflexivity. }
  assert (Hvm :
    item "vmSize" (VDict (template_literal vm_size ints test_cases regions
                            concurrency))
    = Some (VList (if truthy vm_size then [VStr (str_of vm_size)] else []))).
  { unfold template_literal, selection_literal.
    destruct ints, test_cases; reflexivity. }
  split; [exact Hregion|]. split; [intros ->; exact Hregion|].
  split; [|split; [|split]].
  - intros s -> Hs. apply truthy_Some in Hs. now rewrite Hvm, Hs.
  - intros Hf. now rewrite Hvm, Hf.
  - exact Hnull.
  - intros n ->. exact Hnull.
Qed.

Lemma region_and_vm_size_are_sequences_witness :
  exists template,
    _create_template None [PStr "1"] [] "westus3" [] (VInt 0) = Ok template
    /\ item "region" template = Some (VList [])
    /\ item "vmSize" template = Some (VList [])
    /\ has_null template = false.
Proof.
  destruct (region_and_vm_size_are_sequences None [PStr "1"] [] "westus3" []
              (VInt 0) [1]) as (template & E & Hr & _ & _ & Hv & _ & Hn).
  - repeat constructor.
  - exists template. repeat split;
      [exact E | exact Hr | exact (Hv eq_refl) | exact (Hn 0 eq_refl)].
Defined.

(** C8, as stated, at a numeric string of 4301 digits: [int] refuses it and
    [_create_template] raises. *)
Lemma numeric_priority_over_the_digit_limit_raises :
  let digits_4301 := string_of_list_ascii (repeat "1"%char 4301) in
  numeric (PStr digits_4301) = true
  /\ _create_template (Some "Standard_D2s_v3") [PStr digits_4301] []
       "westus3" ["westeurope"] (VInt 0)
     = Raise (InvalidLiteral digits_4301).
Proof. vm_compute. split; reflexivity. Qed.

(** C8, amended.  For a VM size that is a string or absent, priorities that
    are integers or numeric strings of at most 4300 digits, any test cases,
    regions and concurrency, [_create_template] raises nothing: it returns a
    dict with its templateTags, region, vmSize and concurrency keys. *)
Theorem _create_template_never_raises
  (vm_size : option string) (test_priorities : list priority)
  (test_cases : list string) (location : string) (regions : list string)
  (concurrency : value) :
  Forall (fun p => numeric p = true /\ within_digit_limit p = true)
    test_priorities ->
  exists template,
    _create_template vm_size test_priorities test_cases location regions
      concurrency = Ok (VDict template)
    /\ dict_get "templateTags" template = Some (VList [])
    /\ has_key "region" (VDict template) = true
    /\ has_key "vmSize" (VDict template) = true
    /\ dict_get "concurrency" template = Some concurrency.
Proof.
  intro H.
  destruct (priorities_parsed test_priorities) as [ps Eps].
  { revert H. apply Forall_impl. intros p [Hn Hl].
    now apply numeric_accepted. }
  rewrite (_create_template_literal _ _ _ _ _ _ _ Eps).
  eexists; split; [reflexivity|].
  unfold template_literal, selection_literal.
  destruct ps, test_cases; repeat split.
Qed.

Lemma _create_template_never_raises_witness :
  exists template,
    _create_template (Some "Standard_D2s_v3") [PStr "0"; PStr "+12"; PInt 3]
      ["smoke_test"] "westus3" ["westeurope"] (VInt 4) = Ok (VDict template)
    /\ dict_get "templateTags" template = Some (VList [])
    /\ has_key "region" (VDict template) = true
    /\ has_key "vmSize" (VDict template) = true
    /\ dict_get "concurrency" template = Some (VInt 4).
Proof.
  apply _create_template_never_raises. repeat constructor.
Defined.

(** ** Outcomes of [make_job_create_request] *)

Lemma template_literal_null (vm_size : option string) (ps : list Z)
  (test_cases regions : list string) (concurrency : value) :
  has_null (VDict (template_literal vm_size ps test_cases regions
                     concurrency)) = has_null concurrency.
Proof.
  unfold template_literal, selection_literal.
  destruct ps, test_cases, vm_size as [[|ch tl]|]; cbn;
    rewrite ?no_null_ints, ?no_null_strs, ?orb_false_r; reflexivity.
Qed.

Lemma _create_template_returns_iff
  (vm_size : option string) (test_priorities : list priority)
  (test_cases : list string) (location : string) (regions : list string)
  (concurrency : value) :
  (exists template,
      _create_template vm_size test_priorities test_cases location regions
        concurrency = Ok template)
  <-> Forall int_accepts test_priorities.
Proof.
  split.
  - intros [template E].
    destruct (comprehension int test_priorities) as [ps|e] eqn:Eps.
    + apply comprehension_Forall2 in Eps. clear E.
      induction Eps as [|p z r zs Hp _ IH]; constructor;
        [now exists z | exact IH].
    + exfalso. revert E. unfold _create_template.
      destruct test_priorities as [|p r]; [discriminate Eps|].
      cbn [nonempty]. rewrite Eps. discriminate.
  - intro H. destruct (priorities_parsed _ H) as [ps Eps].
    eexists. exact (_create_template_literal _ _ _ _ _ _ _ Eps).
Qed.

(** The two ways [make_job_create_request] returns. *)
Lemma make_job_create_request_inv
  (marketplace_image_urn vhd_sas_url : option string)
  (job_name : string) (template_name : option string)
  (resource_group subscription_id : string) (vm_size : option string)
  (test_priorities : list priority) (test_cases : list string)
  (location : string) (region : list string)
  (concurrency vm_generation : value) (architecture : option string)
  (payload : value) (endpoint : string) :
  make_job_create_request marketplace_image_urn vhd_sas_url job_name
    template_name resource_group subscription_id vm_size test_priorities
    test_cases location region concurrency vm_generation architecture
  = Ok (payload, endpoint) ->
  exists template image,
    _create_template vm_size test_priorities test_cases location region
      concurrency = Ok template
    /\ payload
       = VDict [("location", VStr location);
                ("properties",
                  VDict [("jobTemplateName", str_value template_name);
                         ("jobTemplateInstance", template);
                         ("image", VDict image)])]
    /\ endpoint
       = _get_endpoint ("jobs/" ++ job_name) resource_group subscription_id
    /\ ((truthy marketplace_image_urn = false
         /\ truthy vhd_sas_url = true
         /\ image = [("vhdGeneration", vm_generation);
                     ("architecture", str_value architecture);
                     ("type", VStr "vhd");
                     ("url", VStr (str_of vhd_sas_url))])
        \/ (truthy marketplace_image_urn = true
            /\ truthy vhd_sas_url = false
            /\ exists publisher offer sku version,
                 split ":" (str_of marketplace_image_urn)
                 = [publisher; offer; sku; version]
                 /\ image = [("vhdGeneration", vm_generation);
                             ("architecture", str_value architecture);
                             ("type", VStr "marketplace");
                             ("publisher", VStr publisher);
                             ("offer", VStr offer);
                             ("sku", VStr sku);
                             ("version", VStr version)])).
Proof.
  destruct (truthy marketplace_image_urn) eqn:Hu;
    destruct (truthy vhd_sas_url) eqn:Hv; image_branch Hu Hv;
    try discriminate.
  - destruct (split ":" (str_of marketplace_image_urn))
      as [|a [|b [|c [|d [|e l]]]]] eqn:E; cbn [length Nat.eqb negb bind];
      try discriminate.
    destruct (_create_template vm_size test_priorities test_cases location
                region concurrency) as [t|e]; cbn [bind]; [|discriminate].
    intros [= <- <-]. eexists; eexists.
    split; [reflexivity|]. split; [reflexivity|]. split; [reflexivity|].
    right. split; [reflexivity|]. split; [reflexivity|].
    exists a, b, c, d. split; reflexivity.
  - destruct (_create_template vm_size test_priorities test_cases location
                region concurrency) as [t|e]; cbn [bind]; [|discriminate].
    intros [= <- <-]. eexists; eexists.
    split; [reflexivity|]. split; [reflexivity|]. split; [reflexivity|].
    left. repeat split.
Qed.

(** X1. [make_job_create_request] returns exactly when one image source is
    non-empty and the other is not, a given URN splits into four parts, and
    [int] accepts every priority. *)
Theorem make_job_create_request_returns_iff
  (marketplace_image_urn vhd_sas_url : option string)
  (job_name : string) (template_name : option string)
  (resource_group subscription_id : string) (vm_size : option string)
  (test_priorities : list priority) (test_cases : list string)
  (location : string) (region : list string)
  (concurrency vm_generation : value) (architecture : option string) :
  (exists payload endpoint,
      make_job_create_request marketplace_image_urn vhd_sas_url job_name
        template_name resource_group subscription_id vm_size test_priorities
        test_cases location region concurrency vm_generation architecture
      = Ok (payload, endpoint))
  <-> truthy marketplace_image_urn <> truthy vhd_sas_url
      /\ (truthy marketplace_image_urn = true ->
          length (split ":" (str_of marketplace_image_urn)) = 4%nat)
      /\ Forall int_accepts test_priorities.
Proof.
  split.
  - intros (payload & endpoint & E).
    apply make_job_create_request_inv in E
      as (template & image & Et & _ & _ & Himage).
    assert (Hps : Forall int_accepts test_priorities)
      by (apply (_create_template_returns_iff vm_size _ test_cases location
                   region concurrency); now exists template).
    destruct Himage as [(Hu & Hv & _) | (Hu & Hv & p & o & s & v & E & _)].
    + rewrite Hu, Hv. repeat split; [discriminate | discriminate | exact Hps].
    + rewrite Hu, Hv, E. repeat split; [discriminate | exact Hps].
  - intros (Hne & Hlen & Hps).
    destruct (priorities_parsed _ Hps) as [ps Eps].
    destruct (truthy marketplace_image_urn) eqn:Hu;
      destruct (truthy vhd_sas_url) eqn:Hv; try now contradiction Hne.
    + destruct (split_four _ (Hlen eq_refl)) as (p & o & s & v & E).
      image_branch Hu Hv. rewrite E. cbn [length Nat.eqb negb].
      rewrite (_create_template_literal _ _ _ _ _ _ _ Eps). cbn [bind].
      eexists; eexists; reflexivity.
    + image_branch Hu Hv.
      rewrite (_create_template_literal _ _ _ _ _ _ _ Eps). cbn [bind].
      eexists; eexists; reflexivity.
Qed.

Lemma make_job_create_request_returns_iff_witness :
  exists payload endpoint,
    make_job_create_request (Some "Canonical:ubuntu:server:latest") None
      "testjob" None "testgroup" "testsub" None [PStr " 1 "] ["smoke_test"]
      "westus3" ["westeurope"] (VInt 0) (VInt 2) None
    = Ok (payload, endpoint).
Proof.
  apply make_job_create_request_returns_iff.
  split; [discriminate|]. split; [reflexivity|].
  repeat constructor. eexists; reflexivity.
Defined.

Lemma split_length (sep : ascii) (s : string) :
  length (split sep s) = S (count_char sep s).
Proof.
  induction s as [|c r IH]; simpl; [reflexivity|].
  destruct (Ascii.eqb c sep); simpl; [now rewrite IH|].
  destruct (split sep r) as [|h t]; simpl in *; [discriminate IH | exact IH].
Qed.

(** X2. For a non-empty URN given without a VHD URL, the URN format error is
    raised exactly when the URN does not contain exactly three ':'; empty
    components between the colons are not an error. *)
Theorem urn_format_error_iff_not_three_colons
  (urn : string) (vhd_sas_url : option string)
  (job_name : string) (template_name : option string)
  (resource_group subscription_id : string) (vm_size : option string)
  (test_priorities : list priority) (test_cases : list string)
  (location : string) (region : list string)
  (concurrency vm_generation : value) (architecture : option string) :
  urn <> EmptyString ->
  truthy vhd_sas_url = false ->
  (make_job_create_request (Some urn) vhd_sas_url job_name template_name
     resource_group subscription_id vm_size test_priorities test_cases
     location region concurrency vm_generation architecture
   = Raise (ValueError (urn_format_msg urn))
   <-> count_char ":" urn <> 3%nat).
Proof.
  intros Hu Hv. apply truthy_Some in Hu.
  pose proof (split_length ":" urn) as Hlen.
  image_branch Hu Hv. cbn [str_of].
  destruct (length (split ":" urn) =? 4)%nat eqn:E; cbn [negb].
  - apply Nat.eqb_eq in E.
    destruct (split_four urn E) as (p & o & s & v & Es). rewrite Es.
    split; [|intro Hc; exfalso; apply Hc; lia].
    destruct (_create_template vm_size test_priorities test_cases location
                region concurrency) as [t|e] eqn:Et; cbn [bind].
    + discriminate.
    + apply _create_template_raises in Et as [lit ->]. discriminate.
  - apply Nat.eqb_neq in E. split; [intros _; lia | reflexivity].
Qed.

Lemma urn_format_error_iff_not_three_colons_witness :
  make_job_create_request (Some ":::x:") None "testjob" None "testgroup"
    "testsub" None [] [] "westus3" ["westeurope"] (VInt 0) (VInt 2) None
  = Raise (ValueError (urn_format_msg ":::x:")).
Proof.
  apply urn_format_error_iff_not_three_colons;
    [discriminate | reflexivity | simpl; lia].
Defined.

Lemma comprehension_first_failure {A B : Type} (f : A -> result B)
  (good : list A) (bad : A) (rest : list A) (e : exn) :
  Forall (fun a => exists b, f a = Ok b) good ->
  f bad = Raise e ->
  comprehension f (good ++ bad :: rest) = Raise e.
Proof.
  intros Hgood Hbad.
  induction Hgood as [|a r [b Hb] _ IH]; simpl.
  - now rewrite Hbad.
  - now rewrite Hb, IH.
Qed.

(** X3. When some priority is not an integer literal, [_create_template]
    raises the ValueError of [int] for the leftmost such priority, whatever
    follows it. *)
Theorem _create_template_reports_first_bad_priority
  (vm_size : option string) (good : list priority) (bad : string)
  (rest : list priority) (test_cases : list string) (location : string)
  (regions : list string) (concurrency : value) :
  Forall int_accepts good ->
  int_of_string bad = None ->
  _create_template vm_size (good ++ PStr bad :: rest) test_cases location
    regions concurrency
  = Raise (InvalidLiteral bad).
Proof.
  intros Hgood Hbad.
  assert (E : comprehension int (good ++ PStr bad :: rest)%list
              = Raise (InvalidLiteral bad)).
  { apply comprehension_first_failure; [exact Hgood|].
    simpl. now rewrite Hbad. }
  unfold _create_template.
  destruct (good ++ PStr bad :: rest)%list as [|p r] eqn:El.
  - now destruct good.
  - cbn [nonempty]. rewrite E. reflexivity.
Qed.

Lemma _create_template_reports_first_bad_priority_witness :
  _create_template None ([PStr "0"; PInt 1] ++ PStr "1.5" :: [PStr "x"])
    ["smoke_test"] "westus3" ["westeurope"] (VInt 0)
  = Raise (InvalidLiteral "1.5").
Proof.
  apply _create_template_reports_first_bad_priority;
    [repeat constructor; eexists; reflexivity | reflexivity].
Defined.

(** X4. A returned job request is the dict location, properties, with
    properties holding jobTemplateName, jobTemplateInstance and image in that
    order and nothing else; jobTemplateInstance is the template
    [_create_template] returns for the same arguments, the image carries the
    given vhdGeneration and architecture, and the endpoint is that of
    jobs/<job name>. *)
Theorem job_request_wraps_the_template
  (marketplace_image_urn vhd_sas_url : option string)
  (job_name : string) (template_name : option string)
  (resource_group subscription_id : string) (vm_size : option string)
  (test_priorities : list priority) (test_cases : list string)
  (location : string) (region : list string)
  (concurrency vm_generation : value) (architecture : option string)
  (payload : value) (endpoint : string) :
  make_job_create_request marketplace_image_urn vhd_sas_url job_name
    template_name resource_group subscription_id vm_size test_priorities
    test_cases location region concurrency vm_generation architecture
  = Ok (payload, endpoint) ->
  exists template image,
    _create_template vm_size test_priorities test_cases location region
      concurrency = Ok template
    /\ payload
       = VDict [("location", VStr location);
                ("properties",
                  VDict [("jobTemplateName", str_value template_name);
                         ("jobTemplateInstance", template);
                         ("image", VDict image)])]
    /\ dict_get "vhdGeneration" image = Some vm_generation
    /\ dict_get "architecture" image = Some (str_value architecture)
    /\ endpoint
       = _get_endpoint ("jobs/" ++ job_name) resource_group subscription_id.
Proof.
  intro E.
  apply make_job_create_request_inv in E
    as (template & image & Et & Ep & Ee & Himage).
  exists template, image. repeat split; try assumption;
    destruct Himage as [(_ & _ & ->) | (_ & _ & p & o & s & v & _ & ->)];
    reflexivity.
Qed.

Lemma job_request_wraps_the_template_witness :
  exists template image,
    _create_template (Some "testsize") [PInt 1; PInt 2] [] "testlocation"
      ["testregion"] (VInt 0) = Ok template
    /\ VDict
         [("location", VStr "testlocation");
          ("properties",
            VDict
              [("jobTemplateName", VStr "testtemplate");
               ("jobTemplateInstance",
                 VDict
                   [("templateTags", VList []);
                    ("selections",
                      VList [VDict [("casePriority",
                                       VList [VInt 1; VInt 2])]]);
                    ("region", VList [VStr "testregion"]);
                    ("vmSize", VList [VStr "testsize"]);
                    ("concurrency", VInt 0)]);
               ("image",
                 VDict
                   [("vhdGeneration", VInt 2);
                    ("architecture", VStr "x64");
                    ("type", VStr "vhd");
                    ("url", VStr "http://foobar")])])]
       = VDict [("location", VStr "testlocation");
                ("properties",
                  VDict [("jobTemplateName", str_value (Some "testtemplate"));
                         ("jobTemplateInstance", template);
                         ("image", VDict image)])]
    /\ dict_get "vhdGeneration" image = Some (VInt 2)
    /\ dict_get "architecture" image = Some (str_value (Some "x64"))
    /\ _get_endpoint ("jobs/" ++ "testjob") "testgroup" "testsub"
       = _get_endpoint ("jobs/" ++ "testjob") "testgroup" "testsub".
Proof.
  apply (job_request_wraps_the_template None (Some "http://foobar")
           "testjob" (Some "testtemplate") "testgroup" "testsub"
           (Some "testsize") [PInt 1; PInt 2] [] "testlocation"
           ["testregion"] (VInt 0) (VInt 2) (Some "x64")).
  reflexivity.
Defined.

(** X5. A returned job request contains a null exactly when the template
    name or the architecture is absent, or the caller passed a null inside
    the concurrency or the VM generation. *)
Theorem job_request_nulls
  (marketplace_image_urn vhd_sas_url : option string)
  (job_name : string) (template_name : option string)
  (resource_group subscription_id : string) (vm_size : option string)
  (test_priorities : list priority) (test_cases : list string)
  (location : string) (region : list string)
  (concurrency vm_generation : value) (architecture : option string)
  (payload : value) (endpoint : string) :
  make_job_create_request marketplace_image_urn vhd_sas_url job_name
    template_name resource_group subscription_id vm_size test_priorities
    test_cases location region concurrency vm_generation architecture
  = Ok (payload, endpoint) ->
  has_null payload = true
  <-> template_name = None \/ architecture = None
      \/ has_null concurrency = true \/ has_null vm_generation = true.
Proof.
  intro E.
  apply make_job_create_request_inv in E
    as (template & image & Et & -> & _ & Himage).
  assert (Ht : has_null template = has_null concurrency).
  { pose proof (proj1 (_create_template_returns_iff _ _ _ _ _ _)
                  (ex_intro _ template Et)) as Hps.
    destruct (priorities_parsed _ Hps) as [ps Eps].
    rewrite (_create_template_literal _ _ _ _ _ _ _ Eps) in Et.
    injection Et as <-. apply template_literal_null. }
  assert (Hi : existsb (fun '(_, x) => has_null x) image
               = has_null vm_generation
                 || has_null (str_value architecture)).
  { destruct Himage as [(_ & _ & ->) | (_ & _ & p & o & s & v & _ & ->)];
      cbn; now rewrite ?orb_false_r. }
  cbn. rewrite Ht, Hi, !orb_false_r.
  destruct template_name, architecture, (has_null concurrency),
    (has_null vm_generation); cbn; split; intro H;
    try reflexivity; try discriminate;
    try (now left); try (now right; left);
    try (now right; right; left); try (now right; right; right);
    destruct H as [H | [H | [H | H]]]; discriminate.
Qed.

Lemma job_request_nulls_witness :
  exists payload endpoint,
    make_job_create_request None (Some "http://foobar") "testjob"
      (Some "testtemplate") "testgroup" "testsub" None [] [] "westus3"
      ["westeurope"] (VInt 0) (VInt 2) None
    = Ok (payload, endpoint)
    /\ has_null payload = true.
Proof.
  eexists; eexists; split; [reflexivity|].
  apply (proj2 (job_request_nulls None (Some "http://foobar") "testjob"
                  (Some "testtemplate") "testgroup" "testsub" None [] []
                  "westus3" ["westeurope"] (VInt 0) (VInt 2) None _ _
                  eq_refl)).
  right; left; reflexivity.
Defined.

(** X6. The image object of a returned job request has one of two key
    sequences, chosen by the image source: vhdGeneration, architecture, type,
    url with type "vhd" when the VHD URL is the non-empty source, and
    vhdGeneration, architecture, type, publisher, offer, sku, version with
    type "marketplace" when the URN is. *)
Theorem image_keys_follow_the_source
  (marketplace_image_urn vhd_sas_url : option string)
  (job_name : string) (template_name : option string)
  (resource_group subscription_id : string) (vm_size : option string)
  (test_priorities : list priority) (test_cases : list string)
  (location : string) (region : list string)
  (concurrency vm_generation : value) (architecture : option string)
  (payload : value) (endpoint : string) :
  make_job_create_request marketplace_image_urn vhd_sas_url job_name
    template_name resource_group subscription_id vm_size test_priorities
    test_cases location region concurrency vm_generation architecture
  = Ok (payload, endpoint) ->
  (truthy vhd_sas_url = true
   /\ truthy marketplace_image_urn = false
   /\ image_field "type" payload = Some (VStr "vhd")
   /\ image_keys payload = ["vhdGeneration"; "architecture"; "type"; "url"])
  \/ (truthy marketplace_image_urn = true
      /\ truthy vhd_sas_url = false
      /\ image_field "type" payload = Some (VStr "marketplace")
      /\ image_keys payload
         = ["vhdGeneration"; "architecture"; "type"; "publisher"; "offer";
            "sku"; "version"]).
Proof.
  intro E.
  apply make_job_create_request_inv in E
    as (template & image & _ & -> & _ & Himage).
  destruct Himage as [(Hu & Hv & ->) | (Hu & Hv & p & o & s & v & _ & ->)];
    [left | right]; repeat split; assumption.
Qed.

Lemma image_keys_follow_the_source_witness :
  exists payload endpoint,
    make_job_create_request (Some "Canonical:ubuntu:server:latest") None
      "testjob" (Some "testtemplate") "testgroup" "testsub" None [] []
      "westus3" ["westeurope"] (VInt 0) (VInt 2) (Some "arm64")
    = Ok (payload, endpoint)
    /\ image_keys payload
       = ["vhdGeneration"; "architecture"; "type"; "publisher"; "offer";
          "sku"; "version"].
Proof.
  eexists; eexists; split; [reflexivity|].
  destruct (image_keys_follow_the_source
              (Some "Canonical:ubuntu:server:latest") None "testjob"
              (Some "testtemplate") "testgroup" "testsub" None [] []
              "westus3" ["westeurope"] (VInt 0) (VInt 2) (Some "arm64")
              _ _ eq_refl)
    as [(Hv & _) | (_ & _ & _ & Hk)]; [discriminate Hv | exact Hk].
Defined.

(** ** Endpoints *)

Lemma append_cancel_l (p a b : string) : p ++ a = p ++ b -> a = b.
Proof.
  induction p as [|c p IH]; simpl; [trivial|].
  intros [= H]. now apply IH.
Qed.

Lemma length_append (a b : string) :
  String.length (a ++ b) = (String.length a + String.length b)%nat.
Proof. induction a as [|c a IH]; simpl; [reflexivity | now rewrite IH]. Qed.

Lemma append_cancel_r (a b s : string) : a ++ s = b ++ s -> a = b.
Proof.
  revert b; induction a as [|c a IH]; intros [|d b] H; simpl in H.
  - reflexivity.
  - apply (f_equal String.length) in H. simpl in H.
    rewrite length_append in H. lia.
  - apply (f_equal String.length) in H. simpl in H.
    rewrite length_append in H. lia.
  - injection H as -> H. f_equal. now apply IH.
Qed.

(** Two strings cut at their first [sep] agree piecewise. *)
Lemma first_sep_unique (sep : ascii) (a a' b b' : string) :
  contains sep a = false -> contains sep a' = false ->
  a ++ String sep b = a' ++ String sep b' -> a = a' /\ b = b'.
Proof.
  revert a'; induction a as [|c a IH]; intros [|c' a'] Ha Ha' H;
    simpl in *.
  - injection H as ->. now split.
  - injection H as <- _. now rewrite Ascii.eqb_refl in Ha'.
  - injection H as -> _. now rewrite Ascii.eqb_refl in Ha.
  - injection H as -> H.
    apply orb_false_iff in Ha as [_ Ha]. apply orb_false_iff in Ha' as [_ Ha'].
    destruct (IH a' Ha Ha' H) as [-> ->]. now split.
Qed.

(** X7. Endpoints tell their resources apart when the subscription and the
    resource group contain no '/': two calls of [_get_endpoint] with such
    selectors give the same URL only for the same segment, resource group and
    subscription.  Nothing is escaped, so without that condition different
    selectors can give one URL. *)
Theorem _get_endpoint_injective :
  (forall segment resource_group subscription_id
          segment' resource_group' subscription_id',
      contains "/" subscription_id = false ->
      contains "/" resource_group = false ->
      contains "/" subscription_id' = false ->
      contains "/" resource_group' = false ->
      _get_endpoint segment resource_group subscription_id
      = _get_endpoint segment' resource_group' subscription_id' ->
      segment = segment' /\ resource_group = resource_group'
      /\ subscription_id = subscription_id')
  /\ _get_endpoint "jobs" "c" "a/resourceGroups/b"
     = _get_endpoint "jobs" "b/resourceGroups/c" "a".
Proof.
  split; [|reflexivity].
  intros seg rg sub seg' rg' sub' Hsub Hrg Hsub' Hrg' H.
  unfold _get_endpoint in H.
  apply append_cancel_l in H.
  change (sub ++ "/" ++ ?x) with (sub ++ String "/" x) in H.
  change (sub' ++ "/" ++ ?x) with (sub' ++ String "/" x) in H.
  apply first_sep_unique in H as [-> H]; [|assumption|assumption].
  apply append_cancel_l in H.
  change (rg ++ "/providers/" ++ ?x) with (rg ++ String "/" ("providers/" ++ x))
    in H.
  change (rg' ++ "/providers/" ++ ?x)
    with (rg' ++ String "/" ("providers/" ++ x)) in H.
  apply first_sep_unique in H as [-> H]; [|assumption|assumption].
  do 3 apply append_cancel_l in H.
  apply append_cancel_r in H. now subst.
Qed.

Lemma _get_endpoint_injective_witness :
  "jobs/testjob" = "jobs/testjob" /\ "testgroup" = "testgroup"
  /\ "testsub" = "testsub".
Proof.
  apply (proj1 _get_endpoint_injective "jobs/testjob" "testgroup" "testsub"
           "jobs/testjob" "testgroup" "testsub"); reflexivity.
Defined.

(** ** Runs of the client *)

Lemma requests_bind {A B : Type} (m : Cli.io A) (k : A -> Cli.io B) :
  Cli.requests (Cli.io_bind m k)
  = (Cli.requests m
     ++ match snd m with
        | Cli.Returned a => Cli.requests (k a)
        | Cli.Raised _ => []
        end)%list.
Proof.
  unfold Cli.requests, Cli.io_bind.
  destruct m as [es [a|e]]; simpl.
  - destruct (k a) as [es' r]. simpl. apply flat_map_app.
  - now rewrite app_nil_r.
Qed.

Lemma outcome_bind {A B : Type} (m : Cli.io A) (k : A -> Cli.io B) :
  snd (Cli.io_bind m k)
  = match snd m with
    | Cli.Returned a => snd (k a)
    | Cli.Raised e => Cli.Raised e
    end.
Proof.
  unfold Cli.io_bind. destruct m as [es [a|e]]; simpl; [|reflexivity].
  now destruct (k a).
Qed.

Lemma _output_result_requests (resp : Cli.reply) :
  Cli.requests (Cli._output_result resp) = [].
Proof. destruct resp as [[|] [v|]]; reflexivity. Qed.

Lemma auth_requests (net : Cli.network)
  (tenant_id subscription_id client_id client_secret : string) :
  Cli.requests
    (Cli.auth net tenant_id subscription_id client_id client_secret)
  = [Cli.auth_request tenant_id client_id client_secret].
Proof.
  unfold Cli.auth, Cli.send, Cli.io_bind, Cli.requests.
  destruct (net (Cli.auth_request tenant_id client_id client_secret))
    as [[|] [[| | | |d]|]]; try reflexivity.
  simpl. now destruct (dict_get "access_token" d).
Qed.

Lemma cli_requests (net : Cli.network)
  (resource_group client_id client_secret subscription_id tenant_id : string) :
  Cli.requests
    (Cli.cli net resource_group client_id client_secret subscription_id
       tenant_id)
  = [Cli.auth_request tenant_id client_id client_secret].
Proof.
  unfold Cli.cli. rewrite requests_bind, auth_requests.
  now destruct (snd (Cli.auth net tenant_id subscription_id client_id
                       client_secret)).
Qed.

(** X8. [auth] sends one request, the POST of the client credentials to the
    token URL of the tenant, without Authorization header; it returns the
    access_token member of the reply exactly when the reply is not an HTTP
    error and its body is a JSON object with that member. *)
Theorem auth_returns_the_access_token
  (net : Cli.network)
  (tenant_id subscription_id client_id client_secret : string)
  (token : value) :
  let sent := Cli.auth_request tenant_id client_id client_secret in
  let run :=
    Cli.auth net tenant_id subscription_id client_id client_secret in
  Cli.requests run = [sent]
  /\ Cli.url sent
     = "https://login.microsoftonline.com/" ++ tenant_id ++ "/oauth2/token"
  /\ (snd run = Cli.Returned token
      <-> Cli.ok (net sent) = true
          /\ exists d, Cli.parsed (net sent) = Some (VDict d)
                       /\ dict_get "access_token" d = Some token).
Proof.
  intros sent run. split; [apply auth_requests|]. split; [reflexivity|].
  subst run. unfold Cli.auth, Cli.send, Cli.io_bind. fold sent.
  destruct (net sent) as [[|] [[| | | |d]|]]; simpl; split;
    try discriminate;
    try (intros (Hok & d' & Hd & _); discriminate);
    try (intros (Hok & _); discriminate).
  - destruct (dict_get "access_token" d) as [x|] eqn:E; simpl;
      [|discriminate].
    intros [= <-]. split; [reflexivity|]. now exists d.
  - intros (_ & d' & [= <-] & E). now rewrite E.
Qed.

Lemma auth_returns_the_access_token_witness :
  snd (Cli.auth
         (fun _ => {| Cli.ok := true;
                      Cli.parsed :=
                        Some (VDict [("token_type", VStr "Bearer");
                                     ("access_token", VStr "abc")]) |})
         "tenant" "testsub" "client" "secret")
  = Cli.Returned (VStr "abc").
Proof.
  apply auth_returns_the_access_token.
  split; [reflexivity|]. eexists; split; reflexivity.
Defined.

(** X9. [_output_result] sends nothing.  It returns exactly when the reply is
    not an HTTP error and its body is JSON; a reply whose body is not JSON
    ends it with the error of [json()] before anything is printed, also when
    the reply is an HTTP error; an HTTP error with a JSON body is printed and
    raised. *)
Theorem _output_result_outcomes (resp : Cli.reply) :
  Cli.requests (Cli._output_result resp) = []
  /\ (snd (Cli._output_result resp) = Cli.Returned tt
      <-> Cli.ok resp = true /\ Cli.parsed resp <> None)
  /\ (Cli.parsed resp = None ->
      Cli._output_result resp = ([], Cli.Raised Cli.JSONDecodeError))
  /\ (forall v, Cli.parsed resp = Some v -> Cli.ok resp = false ->
                Cli._output_result resp
                = ([Cli.Printed v], Cli.Raised (Cli.Exn HTTPError)))
  /\ (forall v, Cli.parsed resp = Some v -> Cli.ok resp = true ->
                Cli._output_result resp
                = ([Cli.Dumped v], Cli.Returned tt)).
Proof.
  split; [apply _output_result_requests|].
  destruct resp as [[|] [v|]]; simpl; repeat split;
    try discriminate; try reflexivity;
    try (intros [H1 H2]; try discriminate; now contradiction H2);
    try (intros ? [= <-]; reflexivity);
    try (intros ? [= <-]; discriminate);
    try (intros ? ? ?; discriminate).
Qed.

Lemma _output_result_outcomes_witness :
  Cli._output_result {| Cli.ok := false; Cli.parsed := None |}
  = ([], Cli.Raised Cli.JSONDecodeError).
Proof.
  apply (_output_result_outcomes {| Cli.ok := false; Cli.parsed := None |}).
  reflexivity.
Defined.

Lemma send_then_output_requests (net : Cli.network) (r : Cli.request) :
  Cli.requests (Cli.io_bind (Cli.send net r) Cli._output_result) = [r].
Proof.
  rewrite requests_bind. simpl. now rewrite _output_result_requests.
Qed.

(** What a request of the session sends: the request when the token is
    clean and the body can be written, nothing otherwise. *)
Lemma session_send_output_requests (net : Cli.network) (ctx : Cli.context)
  (m : Cli.method) (endpoint : string) (b : Cli.content) :
  Cli.requests
    (Cli.io_bind (Cli.session_send net ctx m endpoint b) Cli._output_result)
  = match Cli.token_status (Cli.session ctx) with
    | Cli.Clean =>
        if Cli.serializable_content b
        then [Cli.session_request ctx m endpoint b] else []
    | _ => []
    end.
Proof.
  unfold Cli.session_send.
  destruct (Cli.token_status (Cli.session ctx));
    destruct (Cli.serializable_content b); try reflexivity.
  apply send_then_output_requests.
Qed.


Lemma create_job_requests (net : Cli.network) (ctx : Cli.context)
  (name : string)
  (marketplace_image_urn vhd_sas_url architecture template_name
     : option string)
  (vm_generation : value) (vm_size : option string)
  (test_priorities : list priority) (test_cases : list string)
  (location : string) (concurrency : value) (region : list string) :
  Cli.requests
    (Cli.create_job net ctx name marketplace_image_urn vhd_sas_url
       architecture template_name vm_generation vm_size test_priorities
       test_cases location concurrency region)
  = match
      make_job_create_request marketplace_image_urn vhd_sas_url name
        template_name (Cli.resource_group ctx) (Cli.subscription_id ctx)
        vm_size test_priorities test_cases location region concurrency
        vm_generation architecture
    with
    | Ok (payload, endpoint) =>
        match Cli.token_status (Cli.session ctx) with
        | Cli.Clean =>
            if Cli.serializable payload
            then [Cli.session_request ctx Cli.PUT endpoint (Cli.Json payload)]
            else []
        | _ => []
        end
    | Raise _ => []
    end.
Proof.
  unfold Cli.create_job.
  destruct (make_job_create_request marketplace_image_urn vhd_sas_url name
              template_name (Cli.resource_group ctx)
              (Cli.subscription_id ctx) vm_size test_priorities test_cases
              location region concurrency vm_generation architecture)
    as [[payload endpoint]|e]; [|reflexivity].
  rewrite requests_bind. cbn [Cli.lift Cli.ret snd Cli.requests fst flat_map].
  apply session_send_output_requests.
Qed.

(** X10. When [auth] raises, the run ends with that exception whatever the
    subcommand, and the credentials POST is the only request it has sent. *)
Theorem failed_auth_ends_the_run
  (net : Cli.network)
  (resource_group client_id client_secret subscription_id tenant_id : string)
  (c : Cli.command) (e : Cli.error) :
  snd (Cli.auth net tenant_id subscription_id client_id client_secret)
  = Cli.Raised e ->
  let run :=
    Cli.main net resource_group client_id client_secret subscription_id
      tenant_id c in
  snd run = Cli.Raised e
  /\ Cli.requests run = [Cli.auth_request tenant_id client_id client_secret].
Proof.
  intros H run. subst run. unfold Cli.main, Cli.cli. split.
  - rewrite !outcome_bind, H. reflexivity.
  - rewrite !requests_bind, auth_requests, !outcome_bind, H. reflexivity.
Qed.

Lemma failed_auth_ends_the_run_witness :
  Cli.requests
    (Cli.main (fun _ => {| Cli.ok := true; Cli.parsed := Some (VDict []) |})
       "testgroup" "client" "secret" "testsub" "tenant" (Cli.DeleteJob "j"))
  = [Cli.auth_request "tenant" "client" "secret"].
Proof.
  apply (failed_auth_ends_the_run _ "testgroup" "client" "secret" "testsub"
           "tenant" (Cli.DeleteJob "j") (Cli.KeyError "access_token")).
  reflexivity.
Defined.







(** X14. A create-job run with both image sources non-empty, or with both
    empty or absent, sends the credentials POST and nothing else; when [auth]
    returns, the run ends with the ValueError of the image source and has
    printed nothing. *)
Theorem invalid_image_source_is_found_after_auth
  (net : Cli.network)
  (resource_group client_id client_secret subscription_id tenant_id : string)
  (name : string)
  (marketplace_image_urn vhd_sas_url architecture : option string)
  (vm_generation : Z) (template_name vm_size : option string)
  (test_priorities test_cases : list string) (location : string)
  (region : list string) (concurrency : Z) :
  truthy marketplace_image_urn = truthy vhd_sas_url ->
  let run :=
    Cli.main net resource_group client_id client_secret subscription_id
      tenant_id
      (Cli.CreateJob name marketplace_image_urn vhd_sas_url architecture
         vm_generation template_name vm_size test_priorities test_cases
         location region concurrency) in
  Cli.requests run = [Cli.auth_request tenant_id client_id client_secret]
  /\ (forall token,
        snd (Cli.auth net tenant_id subscription_id client_id client_secret)
        = Cli.Returned token ->
        snd run
        = Cli.Raised
            (Cli.Exn (ValueError (if truthy marketplace_image_urn
                                  then only_one_msg else one_of_msg)))
        /\ Cli.prints run = []).
Proof.
  intros H run; subst run.
  assert (Hreq : forall rg sub,
    make_job_create_request marketplace_image_urn vhd_sas_url name
      template_name rg sub vm_size (map PStr test_priorities) test_cases
      location region (VInt concurrency) (VInt vm_generation) architecture
    = Raise (ValueError (if truthy marketplace_image_urn then only_one_msg
                         else one_of_msg))).
  { intros rg sub. destruct (truthy marketplace_image_urn) eqn:Hu;
      symmetry in H; image_branch Hu H; reflexivity. }
  unfold Cli.main, Cli.cli. split.
  - rewrite !requests_bind, auth_requests, !outcome_bind.
    destruct (snd (Cli.auth net tenant_id subscription_id client_id
                     client_secret)) as [token|e]; [|reflexivity].
    cbn [Cli.ret snd Cli.requests fst flat_map app Cli.invoke].
    rewrite create_job_requests. cbn [Cli.resource_group Cli.subscription_id].
    now rewrite Hreq.
  - intros token Ha.
    unfold Cli.auth, Cli.send, Cli.io_bind in *.
    destruct (net (Cli.auth_request tenant_id client_id client_secret))
      as [[|] [[| | | |d]|]]; try discriminate Ha.
    cbn in Ha |- *.
    destruct (dict_get "access_token" d) as [x|]; [|discriminate Ha].
    cbn in Ha |- *. injection Ha as ->.
    unfold Cli.create_job. cbn [Cli.resource_group Cli.subscription_id].
    rewrite Hreq. split; reflexivity.
Qed.

Lemma invalid_image_source_is_found_after_auth_witness :
  Cli.requests
    (Cli.main
       (fun _ => {| Cli.ok := true;
                    Cli.parsed := Some (VDict [("access_token", VStr "abc")])
                 |})
       "testgroup" "client" "secret" "testsub" "tenant"
       (Cli.CreateJob "testjob" None None None 2 None None [] [] "westus3"
          ["westeurope"] 0))
  = [Cli.auth_request "tenant" "client" "secret"].
Proof.
  apply (invalid_image_source_is_found_after_auth _ "testgroup" "client"
           "secret" "testsub" "tenant" "testjob" None None None 2 None None
           [] [] "westus3" ["westeurope"] 0).
  reflexivity.
Defined.

(** X15. A create-template run never sends a PUT: the credentials POST is its
    only request, and when [auth] returns the run ends with the TypeError of
    the call of [create_template] without its [concurrency] argument, for
    which the command declares no option. *)
Theorem create_template_command_never_puts
  (net : Cli.network)
  (resource_group client_id client_secret subscription_id tenant_id : string)
  (name : string) (vm_size : option string)
  (test_priorities test_cases : list string) (location : string)
  (region : list string) :
  let run :=
    Cli.main net resource_group client_id client_secret subscription_id
      tenant_id
      (Cli.CreateTemplate name vm_size test_priorities test_cases location
         region) in
  Cli.requests run = [Cli.auth_request tenant_id client_id client_secret]
  /\ (forall token,
        snd (Cli.auth net tenant_id subscription_id client_id client_secret)
        = Cli.Returned token ->
        snd run = Cli.Raised (Cli.MissingArgument "concurrency")).
Proof.
  intro run; subst run. unfold Cli.main, Cli.cli. split.
  - rewrite !requests_bind, auth_requests, !outcome_bind.
    now destruct (snd (Cli.auth net tenant_id subscription_id client_id
                         client_secret)).
  - intros token Ha. rewrite !outcome_bind, Ha. reflexivity.
Qed.

Lemma create_template_command_never_puts_witness :
  snd (Cli.main
         (fun _ => {| Cli.ok := true;
                      Cli.parsed :=
                        Some (VDict [("access_token", VStr "abc")]) |})
         "testgroup" "client" "secret" "testsub" "tenant"
         (Cli.CreateTemplate "t" None ["0"] [] "westus3" ["westeurope"]))
  = Cli.Raised (Cli.MissingArgument "concurrency").
Proof.
  apply (create_template_command_never_puts _ "testgroup" "client" "secret"
           "testsub" "tenant" "t" None ["0"] [] "westus3" ["westeurope"])
    with (token := VStr "abc").
  reflexivity.
Defined.


